(** * The administration record of the launcher: [info_manager.py]

    A shallow embedding of [InfoManager] (the [info.json] record manager)
    and the properties of its load / normalise / persist life cycle.

    The record ([self.content]) is a finite map from field names to Python
    values.  Exceptions are explicit: every operation that can raise
    returns a [result].  What the interpreter and the host decide (the
    parsers behind [int()], [float()], [uuid.UUID()] and
    [datetime.fromisoformat()], the C library behind
    [datetime.utcfromtimestamp()] and [datetime.timestamp()], the clock,
    PyFunceble's [DictHelper.flatten], and the constants of
    [dead_hosts.launcher.defaults]) is gathered in the class [Env]; the
    general theorems hold for every environment, and concrete environments
    for a POSIX and a Windows host are given for the examples.

    Strings are sequences of code points below 256.  The file system is
    outside the model: the administration file is the JSON object it
    holds, and reading it, writing it and creating the configuration
    directory are taken to succeed, so that [store] and [init] raise only
    what the computation raises; of the legacy files that [update] deletes
    only the computation of their names (which can raise) is kept. *)

From Stdlib Require Import ZArith NArith String Ascii List Bool Lia.
From Stdlib Require Import Floats.SpecFloat.
From stdpp Require Import base option gmap strings list fin_maps.

Local Open Scope string_scope.
Local Open Scope Z_scope.

(** ** Python values *)

(** A Python [float] is an IEEE 754 binary64 number. *)
Definition float : Type := spec_float.

Definition prec : Z := 53.
Definition emax : Z := 1024.

(** The binary64 number nearest to [m * 2^e] (ties to even). *)
Definition float_of_scaled (m e : Z) : float := binary_normalize prec emax m e false.

Definition float_zero : float := S754_zero false.
Definition float_one : float := float_of_scaled 1 0.

(** A [datetime.datetime]: the wall-clock reading in microseconds counted
    from 1970-01-01T00:00:00, and the UTC offset in seconds of an aware
    value ([None] for a naive one). *)
Record datetime : Type := DateTime { dt_wall : Z; dt_utcoffset : option Z }.

(** A [uuid.UUID]: its 128-bit integer. *)
Record uuid : Type := UUID { uuid_int : Z }.

#[warnings="-register-all"] Inductive value : Type :=
| VNone
| VBool (b : bool)
| VInt (z : Z)
| VFloat (f : float)
| VStr (s : string)
| VList (l : list value)
| VDict (d : list (string * value))
| VDatetime (t : datetime)
| VUUID (u : uuid).

(** [self.content] *)
Abbreviation content := (gmap string value).

(** ** Exceptions *)

Inductive exn : Type :=
| TypeError | ValueError | OverflowError | OSError | AttributeError | KeyError.

Inductive result (A : Type) : Type :=
| Ok (a : A)
| Raise (e : exn).
Arguments Ok {A} a.
Arguments Raise {A} e.

#[global] Instance result_ret : MRet result := λ A a, Ok a.
#[global] Instance result_bind : MBind result := λ A B f m,
  match m with Ok a => f a | Raise e => Raise e end.

(** [for index in l: body] over the record, stopping at the first exception. *)
Fixpoint for_each (body : string → content → result content)
    (l : list string) (c : content) : result content :=
  match l with
  | [] => Ok c
  | index :: l' => c' ← body index c; for_each body l' c'
  end.

(** ** Built-in behaviour that does not depend on the host *)

Definition isinstance_bool (v : value) : bool := match v with VBool _ => true | _ => false end.
Definition isinstance_float (v : value) : bool := match v with VFloat _ => true | _ => false end.
Definition isinstance_str (v : value) : bool := match v with VStr _ => true | _ => false end.
Definition isinstance_dict (v : value) : bool := match v with VDict _ => true | _ => false end.
Definition isinstance_datetime (v : value) : bool := match v with VDatetime _ => true | _ => false end.
Definition isinstance_UUID (v : value) : bool := match v with VUUID _ => true | _ => false end.

Definition float_is_zero (f : float) : bool := match f with S754_zero _ => true | _ => false end.

(** Truth value of an object ([if x:]). *)
Definition truthy (v : value) : bool :=
  match v with
  | VNone => false
  | VBool b => b
  | VInt z => negb (z =? 0)
  | VFloat f => negb (float_is_zero f)
  | VStr s => negb (String.eqb s "")
  | VList l => match l with [] => false | _ => true end
  | VDict d => match d with [] => false | _ => true end
  | VDatetime _ => true
  | VUUID _ => true
  end.

(** [s.startswith("@")] *)
Definition startswith_at (s : string) : bool :=
  match s with
  | String c _ => Ascii.eqb c "@"%char
  | EmptyString => false
  end.

(** [s.endswith(suffix)] *)
Definition endswith (s suffix : string) : bool :=
  let n := String.length s in
  let k := String.length suffix in
  (k <=? n)%nat && String.eqb (substring (n - k) k s) suffix.

(** [chr(c).lower()] on the first 256 code points. *)
Definition ascii_lower (c : ascii) : ascii :=
  let n := N_of_ascii c in
  if ((65 <=? n) && (n <=? 90) || (192 <=? n) && (n <=? 214)
      || (216 <=? n) && (n <=? 222))%N
  then ascii_of_N (n + 32) else c.

(** [s.lower()] *)
Fixpoint lower (s : string) : string :=
  match s with
  | EmptyString => EmptyString
  | String c s' => String (ascii_lower c) (lower s')
  end.

(** [s.replace(old, new)] for a one-character [old]. *)
Fixpoint replace (old : ascii) (new : string) (s : string) : string :=
  match s with
  | EmptyString => EmptyString
  | String c s' =>
      if Ascii.eqb c old then new +:+ replace old new s'
      else String c (replace old new s')
  end.

(** [s[:n]] *)
Definition slice_to (n : nat) (s : string) : string := substring 0 n s.

(** [sep.join(l)] for a list of strings. *)
Fixpoint join (sep : string) (l : list string) : string :=
  match l with
  | [] => ""
  | [s] => s
  | s :: l' => s +:+ sep +:+ join sep l'
  end.

(** The characters of a string, each as a one-character string. *)
Fixpoint chars (s : string) : list string :=
  match s with
  | EmptyString => []
  | String c s' => String c EmptyString :: chars s'
  end.

(** [for x in v]: the items an object yields when iterated. *)
Definition iterate (v : value) : result (list value) :=
  match v with
  | VList l => Ok l
  | VStr s => Ok (VStr <$> chars s)
  | VDict d => Ok ((λ kv, VStr kv.1) <$> d)
  | _ => Raise TypeError
  end.

(** [float(z)] for an [int]: the nearest binary64 number, [OverflowError]
    beyond the finite range. *)
Definition float_of_int (z : Z) : result float :=
  match float_of_scaled z 0 with
  | S754_infinity _ => Raise OverflowError
  | f => Ok f
  end.

(** The integer part of a finite float, rounded towards zero, and the
    numerator of the remaining fraction over [2^k]. *)
Definition float_modf (s : bool) (m : positive) (e : Z) : Z * Z * Z :=
  if 0 <=? e then (cond_Zopp s (Z.pos m * 2 ^ e), 0, 0)
  else (cond_Zopp s (Z.pos m / 2 ^ (- e)), cond_Zopp s (Z.pos m mod 2 ^ (- e)), - e).

(** [int(f)] for a [float]. *)
Definition int_of_float (f : float) : result Z :=
  match f with
  | S754_zero _ => Ok 0
  | S754_nan => Raise ValueError
  | S754_infinity _ => Raise OverflowError
  | S754_finite s m e => Ok (float_modf s m e).1.1
  end.

(** Rounding of a finite float to an integer, ties to even. *)
Definition round_half_even (f : float) : Z :=
  match f with
  | S754_finite s m e =>
      if 0 <=? e then cond_Zopp s (Z.pos m * 2 ^ e)
      else
        let d := 2 ^ (- e) in
        let q := Z.pos m / d in
        let r := Z.pos m mod d in
        let up := (d <? 2 * r) || ((2 * r =? d) && Z.odd q) in
        cond_Zopp s (if up then q + 1 else q)
  | _ => 0
  end.

(** The [time_t] that [utcfromtimestamp] reads from the integer part of a
    float.  CPython 3.11 compares the integer part with the bounds of
    [time_t] as doubles and so lets [2^63] itself pass, which the
    conversion (x86-64) turns into [-2^63]; any other integer part is
    kept, and refused with [OverflowError] when it is out of range. *)
Definition time_t_of_intpart (intpart : Z) : Z :=
  if intpart =? 2 ^ 63 then - 2 ^ 63 else intpart.

(** The whole number of microseconds that [utcfromtimestamp] reads from a
    float: the fraction is scaled by [1e6] in binary64 and rounded to the
    nearest integer, ties to even. *)
Definition float_to_us (f : float) : result Z :=
  match f with
  | S754_zero _ => Ok 0
  | S754_nan => Raise ValueError
  | S754_infinity _ => Raise OverflowError
  | S754_finite s m e =>
      let '(intpart, fnum, k) := float_modf s m e in
      let floatpart := SFmul prec emax (float_of_scaled fnum (- k)) (float_of_scaled 1000000 0) in
      let us := round_half_even floatpart in
      if 1000000 <=? us then Ok (time_t_of_intpart (intpart + 1) * 1000000 + (us - 1000000))
      else if us <? 0 then Ok (time_t_of_intpart (intpart - 1) * 1000000 + (us + 1000000))
      else Ok (time_t_of_intpart intpart * 1000000 + us)
  end.

(** ** The environment *)

Class Env : Type := {
  (** [dead_hosts.launcher.defaults.paths.GIT_BASE_NAME] *)
  GIT_BASE_NAME : string;
  (** [dead_hosts.launcher.defaults.paths.GIT_REPO_OWNER] *)
  GIT_REPO_OWNER : string;
  (** [int(s)] for a string; [None] is [ValueError]. *)
  int_of_str : string → option Z;
  (** [float(s)] for a string; [None] is [ValueError]. *)
  float_of_str : string → option float;
  (** [datetime.fromisoformat(s)]; [None] is [ValueError]. *)
  fromisoformat_str : string → option datetime;
  (** [uuid.UUID(s)] for a string; [None] is [ValueError]. *)
  uuid_of_str : string → option uuid;
  (** [str(u)] for a [uuid.UUID]. *)
  str_of_uuid : uuid → string;
  (** [DictHelper(d).flatten()] of PyFunceble. *)
  flatten : list (string * value) → list (string * value);
  (** The C library's [gmtime] as [utcfromtimestamp] uses it, on a whole
      number of microseconds since the epoch. *)
  gmtime_us : Z → result datetime;
  (** [d.timestamp()] *)
  timestamp : datetime → result float;
  (** [d.isoformat()] *)
  isoformat : datetime → string;
  (** [datetime.utcnow()] *)
  utcnow : datetime;
}.

(** ** The operations of [InfoManager] *)

Section InfoManager.
Context `{env : Env}.

(** [float(v)] *)
Definition py_float (v : value) : result float :=
  match v with
  | VFloat f => Ok f
  | VInt z => float_of_int z
  | VBool b => Ok (if b then float_one else float_zero)
  | VStr s => match float_of_str s with Some f => Ok f | None => Raise ValueError end
  | _ => Raise TypeError
  end.

(** [int(v)] *)
Definition py_int (v : value) : result Z :=
  match v with
  | VInt z => Ok z
  | VBool b => Ok (if b then 1 else 0)
  | VFloat f => int_of_float f
  | VStr s => match int_of_str s with Some z => Ok z | None => Raise ValueError end
  | VUUID u => Ok (uuid_int u)
  | _ => Raise TypeError
  end.

(** [datetime.utcfromtimestamp(v)] *)
Definition utcfromtimestamp (v : value) : result datetime :=
  match v with
  | VFloat f => us ← float_to_us f; gmtime_us us
  | VInt z => gmtime_us (z * 1000000)
  | VBool b => gmtime_us (if b then 1000000 else 0)
  | _ => Raise TypeError
  end.

(** [datetime.fromisoformat(v)] *)
Definition fromisoformat (v : value) : result datetime :=
  match v with
  | VStr s => match fromisoformat_str s with Some t => Ok t | None => Raise ValueError end
  | _ => Raise TypeError
  end.

(** [uuid.UUID(v)]: a value that is not a string has no [replace], but
    for a [datetime], whose [replace] rejects the string arguments. *)
Definition py_UUID (v : value) : result uuid :=
  match v with
  | VStr s => match uuid_of_str s with Some u => Ok u | None => Raise ValueError end
  | VDatetime _ => Raise TypeError
  | _ => Raise AttributeError
  end.

(** [d - timedelta(days=n)]; [OverflowError] before year 1. *)
Definition minus_days (t : datetime) (n : Z) : result datetime :=
  let w := dt_wall t - n * 86400000000 in
  if w <? -62135596800000000 then Raise OverflowError
  else Ok (DateTime w (dt_utcoffset t)).

(** *** [update] *)

(** Lines 247-256: the names, under the workspace, of the legacy files
    scheduled for deletion; [os.path.join] rejects a [list_name] that is
    not a string. *)
Definition to_delete (c : content) : result (list string) :=
  let fixed := [".administrators"; "update_me.py"; "admin.py"] in
  match c !! "list_name" with
  | None => Ok fixed
  | Some (VStr s) => Ok (fixed ++ [s])%list
  | Some _ => Raise TypeError
  end.

(** The loop body of lines 261-265. *)
Definition ping_entry (username : value) : result value :=
  match username with
  | VStr s => Ok (VStr (if startswith_at s then s else "@" +:+ s))
  | _ => Raise AttributeError
  end.

(** Lines 258-267. *)
Definition update_ping (c : content) : result content :=
  match c !! "ping" with
  | None => Ok c
  | Some v =>
      usernames ← iterate v;
      local_ping_result ← mapM ping_entry usernames;
      Ok (<["ping" := VList local_ping_result]> c)
  end.

(** Lines 274-279. *)
Definition update_raw_link (c : content) : content :=
  match c !! "raw_link" with
  | Some v =>
      if isinstance_str v && negb (truthy v) then <["raw_link" := VNone]> c else c
  | None => c
  end.

(** Lines 286-295. *)
Definition update_custom_config (c : content) : content :=
  match c !! "custom_pyfunceble_config" with
  | Some v =>
      if truthy v then
        match v with
        | VDict d => <["custom_pyfunceble_config" := VDict (flatten d)]> c
        | _ => <["custom_pyfunceble_config" := VDict []]> c
        end
      else <["custom_pyfunceble_config" := VDict []]> c
  | None => c
  end.

(** Lines 303-308. *)
Definition update_custom_config_again (c : content) : content :=
  match c !! "custom_pyfunceble_config" with
  | Some v =>
      if truthy v && negb (isinstance_dict v)
      then <["custom_pyfunceble_config" := VDict []]> c else c
  | None => c
  end.

(** The loop body of lines 317-318. *)
Definition coerce_bool (index : string) (c : content) : result content :=
  match c !! index with
  | Some v =>
      if negb (isinstance_bool v) then
        z ← py_int v; Ok (<[index := VBool (negb (z =? 0))]> c)
      else Ok c
  | None => Ok c
  end.

(** The list of lines 327-334.  The source has no comma after
    ["last_download_timestamp"], so Python joins that literal with the
    next one into a single name. *)
Definition float_indexes : list string :=
  [ "days_until_next_test";
    "finish_timestamp";
    "last_download_timestamp" +:+ "latest_part_finish_timestamp";
    "latest_part_start_timestamp";
    "start_timestamp" ].

(** The loop body of lines 335-336. *)
Definition coerce_float (index : string) (c : content) : result content :=
  match c !! index with
  | Some v =>
      if negb (isinstance_float v) then
        f ← py_float v; Ok (<[index := VFloat f]> c)
      else Ok c
  | None => Ok c
  end.

Definition timestamp_indexes : list string :=
  [ "finish_timestamp";
    "last_download_timestamp";
    "latest_part_finish_timestamp";
    "latest_part_start_timestamp";
    "start_timestamp" ].

(** The loop body of lines 357-361: only [OSError] is caught. *)
Definition convert_timestamp (epoch_dt : datetime) (index : string) (c : content)
    : result content :=
  match c !! index with
  | Some v =>
      if negb (isinstance_datetime v) then
        match utcfromtimestamp v with
        | Ok t => Ok (<[index := VDatetime t]> c)
        | Raise OSError => Ok (<[index := VDatetime epoch_dt]> c)
        | Raise e => Raise e
        end
      else Ok c
  | None => Ok c
  end.

Definition datetime_indexes : list string :=
  [ "finish_datetime";
    "last_download_datetime";
    "latest_part_finish_datetime";
    "latest_part_start_datetime";
    "start_datetime" ].

(** The loop body of lines 370-379: only [ValueError] is caught, and the
    [else] branch is taken by a falsy value and by a [datetime] alike. *)
Definition convert_datetime (epoch_dt : datetime) (index : string) (c : content)
    : result content :=
  match c !! index with
  | Some v =>
      if truthy v && negb (isinstance_datetime v) then
        match fromisoformat v with
        | Ok t => Ok (<[index := VDatetime t]> c)
        | Raise ValueError => Ok (<[index := VDatetime epoch_dt]> c)
        | Raise e => Raise e
        end
      else Ok (<[index := VDatetime epoch_dt]> c)
  | None => Ok c
  end.

Definition uuid_indexes : list string :=
  [ "platform_container_id"; "platform_remote_source_id" ].

(** The loop body of lines 385-400. *)
Definition convert_uuid (index : string) (c : content) : result content :=
  match c !! index with
  | Some v =>
      if truthy v && negb (isinstance_UUID v) then
        u ← py_UUID v; Ok (<[index := VUUID u]> c)
      else Ok (<[index := VNone]> c)
  | None => Ok c
  end.

(** Lines 408-411. *)
Definition repo_name : string := GIT_REPO_OWNER +:+ "/" +:+ GIT_BASE_NAME.

(** Lines 414-421, on the string held by [name]. *)
Definition container_name (name : string) : string :=
  slice_to 128
    (replace "." "-"
      (replace ")" ""
        (replace "(" ""
          (replace "]" ""
            (replace "[" ""
              (replace " " "-" (lower name))))))).

(** Lines 413-422. *)
Definition update_container_name (c : content) : result content :=
  match c !! "name" with
  | Some (VStr name) => Ok (<["platform_container_name" := VStr (container_name name)]> c)
  | Some _ => Raise AttributeError
  | None => Raise KeyError
  end.

(** [InfoManager.update], lines 236-431. *)
Definition update (c : content) : result content :=
  let c := <["name" := VStr GIT_BASE_NAME]> c in
  _ ← to_delete c;
  c ← update_ping c;
  let c := update_raw_link c in
  let c := update_custom_config c in
  let c := update_custom_config_again c in
  c ← for_each coerce_bool ["currently_under_test"; "ping_enabled"] c;
  c ← for_each coerce_float float_indexes c;
  epoch_dt ← utcfromtimestamp (VInt 0);
  c ← for_each (convert_timestamp epoch_dt) timestamp_indexes c;
  c ← for_each (convert_datetime epoch_dt) datetime_indexes c;
  c ← for_each convert_uuid uuid_indexes c;
  let c := <["repo" := VStr repo_name]> c in
  update_container_name c.

(** *** [create_missing_index] *)

(** The expression of lines 205-210: the default container name, which
    leaves the dots of the name alone. *)
Definition default_container_name (name : string) : string :=
  slice_to 128
    (replace ")" ""
      (replace "(" ""
        (replace "]" ""
          (replace "[" ""
            (replace " " "-" (lower name)))))).

(** The dictionary [indexes] of lines 189-224, in the order of the source. *)
Definition indexes (default_datetime : datetime) (default_timestamp : float)
    : list (string * value) :=
  [ ("currently_under_test", VBool false);
    ("custom_pyfunceble_config", VDict []);
    ("days_until_next_test", VInt 2);
    ("finish_datetime", VDatetime default_datetime);
    ("finish_timestamp", VFloat default_timestamp);
    ("last_download_datetime", VDatetime default_datetime);
    ("last_download_timestamp", VFloat default_timestamp);
    ("latest_part_finish_timestamp", VFloat default_timestamp);
    ("latest_part_start_timestamp", VFloat default_timestamp);
    ("latest_part_finish_datetime", VDatetime default_datetime);
    ("latest_part_start_datetime", VDatetime default_datetime);
    ("name", VStr GIT_BASE_NAME);
    ("repo", VStr repo_name);
    ("platform_container_name", VStr (default_container_name GIT_BASE_NAME));
    ("platform_description", VStr "Imported from Dead-Hosts legacy infrastructure.");
    ("own_management", VBool false);
    ("ping", VList []);
    ("ping_enabled", VBool false);
    ("raw_link", VNone);
    ("start_datetime", VDatetime default_datetime);
    ("start_timestamp", VFloat default_timestamp);
    ("live_update", VBool true);
    ("platform_container_id", VNone);
    ("platform_remote_source_id", VNone);
    ("platform_optout", VBool (negb (String.eqb GIT_REPO_OWNER "dead-hosts"))) ].

(** The loop body of lines 227-228. *)
Definition create_index (c : content) (iv : string * value) : content :=
  match c !! iv.1 with
  | None => <[iv.1 := iv.2]> c
  | Some _ => c
  end.

(** [InfoManager.create_missing_index], lines 180-234.  The dictionary is
    built, and so [timestamp()] is called, whatever the record holds. *)
Definition create_missing_index (c : content) : result content :=
  default_datetime ← minus_days utcnow 15;
  _ ← utcfromtimestamp (VInt 0);
  default_timestamp ← timestamp default_datetime;
  Ok (foldl create_index c (indexes default_datetime default_timestamp)).

(** *** [clean] *)

Definition obsolete_indexes : list string :=
  [ "arguments"; "clean_list_file"; "clean_original"; "commit_autosave_message";
    "last_test"; "list_name"; "stable"; "platform_shortname" ].

(** [InfoManager.clean], lines 154-178. *)
Definition clean (c : content) : content :=
  foldl (λ c index, delete index c) c obsolete_indexes.

(** *** [store] *)

(** The value that [store] puts in [local_copy], lines 135-149;
    [copy.deepcopy] returns an equal value. *)
Definition store_value (index : string) (v : value) : result value :=
  match v with
  | VDatetime t =>
      if endswith index "_timestamp" then
        match timestamp t with
        | Ok f => Ok (VFloat f)
        | Raise OSError => Ok (VFloat float_zero)
        | Raise e => Raise e
        end
      else if endswith index "_datetime" then Ok (VStr (isoformat t))
      else Ok v
  | VUUID u => Ok (VStr (str_of_uuid u))
  | _ => Ok v
  end.

(** The loop of lines 131-149.  When several fields raise, Python meets
    them in insertion order; the exception reported here is the one of
    the fold over the map. *)
Definition local_copy (c : content) : result content :=
  map_fold (λ index v acc, r ← acc; v' ← store_value index v; Ok (<[index := v']> r))
    (Ok ∅) c.

(** What [json] can encode. *)
Fixpoint json_encodable (v : value) : bool :=
  match v with
  | VList l => forallb json_encodable l
  | VDict d => forallb (λ kv, let '(_, x) := kv in json_encodable x) d
  | VDatetime _ | VUUID _ => false
  | _ => true
  end.

(** [InfoManager.store], lines 124-152: the JSON object written to the
    administration file.  The record itself is left as it is.  Of the
    writer of line 151 only the encoding is kept, which rejects what [json]
    cannot encode; the write to the file system is taken to succeed. *)
Definition store (c : content) : result content :=
  j ← local_copy c;
  if decide (map_Forall (λ _ v, json_encodable v = true) j) then Ok j
  else Raise TypeError.

(** *** [get_ping_for_commit] *)

(** An item that [str.join] accepts. *)
Definition join_item (v : value) : result string :=
  match v with
  | VStr s => Ok s
  | _ => Raise TypeError
  end.

(** [x is True] *)
Definition is_True (v : value) : bool :=
  match v with VBool true => true | _ => false end.

(** [InfoManager.get_ping_for_commit], lines 433-441. *)
Definition get_ping_for_commit (c : content) : result string :=
  match c !! "ping_enabled", c !! "ping" with
  | Some enabled, Some ping =>
      if is_True enabled && truthy ping then
        items ← iterate ping;
        names ← mapM join_item items;
        Ok (join " " names)
      else Ok ""
  | _, _ => Ok ""
  end.

(** *** [__getitem__], [__setitem__] and [__init__] *)

(** Lines 112-116, and lines 106-110: [__getattr__], which Python calls
    for a name that is no attribute of the object, as [platform_optout]
    on line 95, has the same body. *)
Definition getitem (c : content) (index : string) : result value :=
  match c !! index with
  | Some v => Ok v
  | None => Raise AttributeError
  end.

(** Lines 118-119. *)
Definition setitem (c : content) (index : string) (v : value) : content :=
  <[index := v]> c.

(** Lines 90-92 of [__init__]: the normalisation of a loaded record. *)
Definition normalize (c : content) : result content :=
  c ← update c;
  c ← create_missing_index c;
  Ok (clean c).

(** Lines 79-82: the record read from the administration file, which is
    modelled by the JSON object it holds, if it exists. *)
Definition load (file : option content) : content :=
  match file with
  | Some j => j
  | None => ∅
  end.

(** Lines 95-102: which configuration directory is used. *)
Inductive config_dir : Type := ProjectConfigDir | TemporaryConfigDir.

(** [InfoManager.__init__], lines 76-104: the record in memory, the
    object written to the file, and the configuration directory.  The read
    of lines 77-80 is [load] and the directory of line 104 is only named:
    both are taken to succeed. *)
Definition init (file : option content) : result (content * content * config_dir) :=
  c ← normalize (load file);
  j ← store c;
  optout ← getitem c "platform_optout";
  Ok (c, j, if is_True optout then ProjectConfigDir else TemporaryConfigDir).

End InfoManager.

(** ** Concrete environments

    A host is a C library ([Posix]: glibc with a 64-bit [time_t];
    [Windows]: the Microsoft runtime), a local time zone with a fixed
    offset from UTC, the two constants of the project and a clock reading.
    The parsers accept the canonical spellings (what [repr], [isoformat]
    and [str] print), which is all the examples below rely on; Python
    accepts more. *)

Module Host.

Inductive os : Type := Posix | Windows.

(** *** The proleptic Gregorian calendar *)

Definition leap_days_before (y : Z) : Z := (y - 1) / 4 - (y - 1) / 100 + (y - 1) / 400.

(** Days from 0001-01-01 to the first day of year [y]. *)
Definition days_before_year (y : Z) : Z := 365 * (y - 1) + leap_days_before y.

(** Seconds from the epoch to the start of year [y]. *)
Definition year_start (y : Z) : Z := (days_before_year y - days_before_year 1970) * 86400.

Definition is_leap (y : Z) : bool :=
  (y mod 4 =? 0) && (negb (y mod 100 =? 0) || (y mod 400 =? 0)).

Definition days_in_month (y m : Z) : Z :=
  if m =? 2 then (if is_leap y then 29 else 28)
  else if (m =? 4) || (m =? 6) || (m =? 9) || (m =? 11) then 30 else 31.

Definition days_before_month (y m : Z) : Z :=
  foldr (λ k acc, days_in_month y k + acc) 0 (seqZ 1 (m - 1)).

(** Days from the epoch to the given date. *)
Definition days_from_civil (y m d : Z) : Z :=
  days_before_year y + days_before_month y m + (d - 1) - days_before_year 1970.

(** The date, as year, month and day, of a day counted from the epoch. *)
Definition civil_from_days (z : Z) : Z * Z * Z :=
  let z := z + 719468 in
  let era := z / 146097 in
  let doe := z mod 146097 in
  let yoe := (doe - doe / 1460 + doe / 36524 - doe / 146096) / 365 in
  let doy := doe - (365 * yoe + yoe / 4 - yoe / 100) in
  let mp := (5 * doy + 2) / 153 in
  let d := doy - (153 * mp + 2) / 5 + 1 in
  let m := if mp <? 10 then mp + 3 else mp - 9 in
  (yoe + era * 400 + (if m <=? 2 then 1 else 0), m, d).

(** Whether the second [sec] falls in the years 1 to 9999 of [datetime]. *)
Definition in_datetime_range (sec : Z) : bool :=
  (year_start 1 <=? sec) && (sec <? year_start 10000).

(** Whether the year of [sec], counted from 1900, fits the [int] field
    [tm_year]. *)
Definition tm_year_fits (sec : Z) : bool :=
  (year_start (1900 - 2147483648) <=? sec) && (sec <? year_start (1900 + 2147483648)).

Definition time_t_fits (sec : Z) : bool := (- 2 ^ 63 <=? sec) && (sec <? 2 ^ 63).

(** *** The C library *)

(** [gmtime] as [utcfromtimestamp] sees it.  glibc converts any second
    whose year fits [tm_year]; the Microsoft runtime rejects a negative
    [time_t] and one after the year 3000.  [datetime] then rejects a year
    outside 1..9999. *)
Definition gmtime_us (h : os) (us : Z) : result datetime :=
  let sec := us / 1000000 in
  if negb (time_t_fits sec) then Raise OverflowError
  else
    let accepted :=
      match h with
      | Posix => tm_year_fits sec
      | Windows => (0 <=? sec) && (sec <? year_start 3001)
      end in
    if negb accepted then Raise OSError
    else if negb (in_datetime_range sec) then Raise ValueError
    else Ok (DateTime us None).

(** [localtime] as [timestamp] uses it, for a zone [utcoffset] seconds east
    of UTC: the local wall-clock second of an instant. *)
Definition local (h : os) (utcoffset : Z) (u : Z) : result Z :=
  let accepted :=
    match h with
    | Posix => tm_year_fits u
    | Windows => (0 <=? u) && (u <? year_start 3001)
    end in
  if negb accepted then Raise OSError
  else if negb (in_datetime_range (u + utcoffset)) then Raise ValueError
  else Ok (u + utcoffset).

(** The binary64 number nearest to [n / d], for [0 < d]. *)
Definition float_of_ratio (n d : Z) : float :=
  if n =? 0 then float_zero
  else
    let k := Z.max 0 (64 + Z.log2 d - Z.log2 (Z.abs n)) in
    let q := (Z.abs n * 2 ^ k) / d in
    let sticky := if (Z.abs n * 2 ^ k) mod d =? 0 then 0 else 1 in
    float_of_scaled (Z.sgn n * (2 * q + sticky)) (- k - 1).

(** [d.timestamp()]: an aware value is measured from the epoch; a naive
    one is read as local time, which [local_to_seconds] inverts by probing
    [localtime] at the value, at the solution and one day before it. *)
Definition timestamp (h : os) (utcoffset : Z) (t : datetime) : result float :=
  match dt_utcoffset t with
  | Some off => Ok (float_of_ratio (dt_wall t - off * 1000000) 1000000)
  | None =>
      let sec := dt_wall t / 1000000 in
      let us := dt_wall t mod 1000000 in
      _ ← local h utcoffset sec;
      let u1 := sec - utcoffset in
      _ ← local h utcoffset u1;
      _ ← local h utcoffset (u1 - 86400);
      Ok (SFadd prec emax (float_of_scaled u1 0) (float_of_ratio us 1000000))
  end.

(** *** Printing and parsing *)

Definition digit_char (z : Z) : ascii := ascii_of_N (48 + Z.to_N z).

(** The [n] low decimal digits of [z], zero-padded. *)
Fixpoint decimal (n : nat) (z : Z) : string :=
  match n with
  | O => ""
  | S n' => decimal n' (z / 10) +:+ String (digit_char (z mod 10)) ""
  end.

Definition hex_char (z : Z) : ascii :=
  if z <? 10 then ascii_of_N (48 + Z.to_N z) else ascii_of_N (87 + Z.to_N z).

(** The [n] low hexadecimal digits of [z], zero-padded, in lower case. *)
Fixpoint hexadecimal (n : nat) (z : Z) : string :=
  match n with
  | O => ""
  | S n' => hexadecimal n' (z / 16) +:+ String (hex_char (z mod 16)) ""
  end.

Definition digit_value (c : ascii) : option Z :=
  let n := Z.of_N (N_of_ascii c) in
  if (48 <=? n) && (n <=? 57) then Some (n - 48) else None.

Definition hex_value (c : ascii) : option Z :=
  let n := Z.of_N (N_of_ascii c) in
  if (48 <=? n) && (n <=? 57) then Some (n - 48)
  else if (97 <=? n) && (n <=? 102) then Some (n - 87)
  else if (65 <=? n) && (n <=? 70) then Some (n - 55)
  else None.

(** The number written by a non-empty string of digits in base [base]. *)
Fixpoint number_from (base : Z) (digit : ascii → option Z) (acc : Z) (s : string)
    : option Z :=
  match s with
  | EmptyString => Some acc
  | String c s' => d ← digit c; number_from base digit (base * acc + d) s'
  end.

Definition number (base : Z) (digit : ascii → option Z) (s : string) : option Z :=
  match s with
  | EmptyString => None
  | _ => number_from base digit 0 s
  end.

Definition natural (s : string) : option Z := number 10 digit_value s.

(** A string with an optional sign in front: the sign and the rest. *)
Definition split_sign (s : string) : bool * string :=
  match s with
  | String "-" s' => (true, s')
  | String "+" s' => (false, s')
  | _ => (false, s)
  end.

(** [int(s)] on an optionally signed string of decimal digits. *)
Definition int_of_str (s : string) : option Z :=
  let '(neg, digits) := split_sign s in
  cond_Zopp neg <$> natural digits.

(** The part of [s] before the first [c] and, if there is one, the part
    after it. *)
Fixpoint split_at (c : ascii) (s : string) : string * option string :=
  match s with
  | EmptyString => (EmptyString, None)
  | String x s' =>
      if Ascii.eqb x c then (EmptyString, Some s')
      else let '(a, b) := split_at c s' in (String x a, b)
  end.

(** The digits of a decimal mantissa [int.frac], [int.], [.frac] or [int]:
    its digits as a number and the count of those after the point. *)
Definition mantissa (s : string) : option (Z * Z) :=
  let '(int_part, frac) := split_at "." s in
  let frac_part := default "" frac in
  match int_part +:+ frac_part with
  | EmptyString => None
  | ds => m ← natural ds; Some (m, Z.of_nat (String.length frac_part))
  end.

(** [float(s)] on [nan], [inf], [infinity] and on decimal literals with an
    optional fraction and exponent, correctly rounded. *)
Definition float_of_str (s : string) : option float :=
  let '(neg, body) := split_sign (lower s) in
  if String.eqb body "nan" then Some S754_nan
  else if String.eqb body "inf" || String.eqb body "infinity" then Some (S754_infinity neg)
  else
    let '(m, e) := split_at "e" body in
    (ds ← mantissa m;
     exponent ← match e with Some e => int_of_str e | None => Some 0 end;
     let p := exponent - ds.2 in
     if ds.1 =? 0 then Some (S754_zero neg)
     else if 0 <=? p then Some (float_of_scaled (cond_Zopp neg (ds.1 * 10 ^ p)) 0)
     else Some (float_of_ratio (cond_Zopp neg ds.1) (10 ^ (- p)))).

(** [d.isoformat()] *)
Definition isoformat (t : datetime) : string :=
  let days := dt_wall t / 86400000000 in
  let rest := dt_wall t mod 86400000000 in
  let '(y, m, d) := civil_from_days days in
  let sec := rest / 1000000 in
  let us := rest mod 1000000 in
  decimal 4 y +:+ "-" +:+ decimal 2 m +:+ "-" +:+ decimal 2 d +:+ "T"
  +:+ decimal 2 (sec / 3600) +:+ ":" +:+ decimal 2 (sec / 60 mod 60) +:+ ":"
  +:+ decimal 2 (sec mod 60)
  +:+ (if us =? 0 then "" else "." +:+ decimal 6 us)
  +:+ match dt_utcoffset t with
      | None => ""
      | Some off =>
          let a := Z.abs off in
          (if off <? 0 then "-" else "+") +:+ decimal 2 (a / 3600) +:+ ":"
          +:+ decimal 2 (a / 60 mod 60)
          +:+ (if a mod 60 =? 0 then "" else ":" +:+ decimal 2 (a mod 60))
      end.

(** [datetime.fromisoformat(s)] on [YYYY-MM-DDTHH:MM:SS] and
    [YYYY-MM-DDTHH:MM:SS.ffffff]. *)
Definition fromisoformat_str (s : string) : option datetime :=
  let field i n := natural (substring i n s) in
  let sep i c := String.eqb (substring i 1 s) c in
  let n := String.length s in
  if negb ((n =? 19)%nat || (n =? 26)%nat) then None
  else if negb (sep 4%nat "-" && sep 7%nat "-" && sep 10%nat "T"
                && sep 13%nat ":" && sep 16%nat ":") then None
  else if (n =? 26)%nat && negb (sep 19%nat ".") then None
  else
    (y ← field 0%nat 4%nat; m ← field 5%nat 2%nat; d ← field 8%nat 2%nat;
     hh ← field 11%nat 2%nat; mm ← field 14%nat 2%nat; ss ← field 17%nat 2%nat;
     us ← (if (n =? 26)%nat then field 20%nat 6%nat else Some 0);
     if (1 <=? y) && (y <=? 9999) && (1 <=? m) && (m <=? 12)
        && (1 <=? d) && (d <=? days_in_month y m)
        && (hh <=? 23) && (mm <=? 59) && (ss <=? 59)
     then Some (DateTime
                  ((((days_from_civil y m d * 24 + hh) * 60 + mm) * 60 + ss) * 1000000 + us)
                  None)
     else None).

(** [s.replace(pat, "")]: [skip] counts the characters of a match still
    to be dropped. *)
Fixpoint remove_from (pat : string) (skip : nat) (s : string) : string :=
  match s with
  | EmptyString => EmptyString
  | String c s' =>
      match skip with
      | S k => remove_from pat k s'
      | O =>
          if String.prefix pat s
          then remove_from pat (Nat.pred (String.length pat)) s'
          else String c (remove_from pat O s')
      end
  end.

Definition remove (pat s : string) : string := remove_from pat O s.

Definition is_brace (c : ascii) : bool := Ascii.eqb c "{" || Ascii.eqb c "}".

Fixpoint lstrip_braces (s : string) : string :=
  match s with
  | String c s' => if is_brace c then lstrip_braces s' else s
  | EmptyString => EmptyString
  end.

(** [s.strip("{}")] *)
Definition strip_braces (s : string) : string :=
  String.rev (lstrip_braces (String.rev (lstrip_braces s))).

(** [uuid.UUID(s)], lines of [UUID.__init__] for the [hex] argument, with
    [int(hex, 16)] on hexadecimal digits only. *)
Definition uuid_of_str (s : string) : option uuid :=
  let hex := remove "-" (strip_braces (remove "uuid:" (remove "urn:" s))) in
  if negb (String.length hex =? 32)%nat then None
  else UUID <$> number 16 hex_value hex.

(** [str(u)] *)
Definition str_of_uuid (u : uuid) : string :=
  let hex := hexadecimal 32 (uuid_int u) in
  substring 0 8 hex +:+ "-" +:+ substring 8 4 hex +:+ "-" +:+ substring 12 4 hex
  +:+ "-" +:+ substring 16 4 hex +:+ "-" +:+ substring 20 12 hex.

(** *** PyFunceble's [DictHelper.flatten] *)

(** [result[key] = v] on a dictionary kept in insertion order. *)
Fixpoint dict_set (key : string) (v : value) (d : list (string * value))
    : list (string * value) :=
  match d with
  | [] => [(key, v)]
  | (k, x) :: d' => if String.eqb k key then (k, v) :: d' else (k, x) :: dict_set key v d'
  end.

(** [flatten(previous=previous, data=data)] with the separator ["."]: the
    keys of nested dictionaries are joined to the key they sit under. *)
Fixpoint flatten_data (previous : option string) (data : value) : list (string * value) :=
  match data with
  | VDict d =>
      foldl (λ result kv,
               let '(key, v) := kv in
               foldl (λ result ye,
                        match previous with
                        | Some p => dict_set (p +:+ "." +:+ ye.1) ye.2 result
                        | None => dict_set ye.1 ye.2 result
                        end)
                     result (flatten_data (Some key) v))
            [] d
  | _ =>
      match previous with
      | Some (String c p) => [(String c p, data)]
      | _ => [(".", data)]
      end
  end.

Definition flatten (d : list (string * value)) : list (string * value) :=
  flatten_data None (VDict d).

End Host.

(** The environment of a host. *)
Definition host_env (h : Host.os) (utcoffset : Z) (owner name : string) (now : Z) : Env :=
  {| GIT_BASE_NAME := name;
     GIT_REPO_OWNER := owner;
     int_of_str := Host.int_of_str;
     float_of_str := Host.float_of_str;
     fromisoformat_str := Host.fromisoformat_str;
     uuid_of_str := Host.uuid_of_str;
     str_of_uuid := Host.str_of_uuid;
     flatten := Host.flatten;
     gmtime_us := Host.gmtime_us h;
     timestamp := Host.timestamp h utcoffset;
     isoformat := Host.isoformat;
     utcnow := DateTime now None |}.

(** A Linux runner in UTC, for the repository [dead-hosts/My [Cool] List.txt],
    on 2026-11-03 at 12:00:00 UTC. *)
Definition linux_utc : Env :=
  host_env Host.Posix 0 "dead-hosts" "My [Cool] List.txt" 1793707200000000.

(** The same runner with a local time zone one hour east of UTC. *)
Definition linux_cet : Env :=
  host_env Host.Posix 3600 "dead-hosts" "My [Cool] List.txt" 1793707200000000.

(** A Windows runner in UTC. *)
Definition windows_utc : Env :=
  host_env Host.Windows 0 "dead-hosts" "My [Cool] List.txt" 1793707200000000.

(** * Vocabulary of the properties *)

(** [writes K f]: when [f] returns, the fields outside [K] are as before. *)
Definition writes (K : list string) (f : content → result content) : Prop :=
  ∀ c c', f c = Ok c' → ∀ k, k ∉ K → c' !! k = c !! k.

(** The number of ['@'] a string starts with. *)
Fixpoint leading_ats (s : string) : nat :=
  match s with
  | String c s' => if Ascii.eqb c "@" then S (leading_ats s') else O
  | EmptyString => O
  end.

(** A ping entry after [update]: prefixed with ['@'] unless it starts
    with one. *)
Definition mention (s : string) : string :=
  if startswith_at s then s else "@" +:+ s.

(** [s] with each character replaced by the string [f] gives for it. *)
Fixpoint expand (f : ascii → string) (s : string) : string :=
  match s with
  | EmptyString => EmptyString
  | String c s' => f c +:+ expand f s'
  end.

Definition is_bracket (c : ascii) : bool :=
  Ascii.eqb c "[" || Ascii.eqb c "]" || Ascii.eqb c "(" || Ascii.eqb c ")".

(** The derivation of [platform_container_name], character by character:
    lower case, a space and a dot become a dash, brackets and parentheses
    go. *)
Definition derived_char (c : ascii) : string :=
  if Ascii.eqb c " " || Ascii.eqb c "." then "-"
  else if is_bracket c then ""
  else String (ascii_lower c) "".

Definition derived_container_name (name : string) : string :=
  slice_to 128 (expand derived_char name).

(** The derivation as the specification words it: the dot goes too. *)
Definition specified_char (c : ascii) : string :=
  if Ascii.eqb c " " then "-"
  else if is_bracket c || Ascii.eqb c "." then ""
  else String (ascii_lower c) "".

Definition specified_container_name (name : string) : string :=
  slice_to 128 (expand specified_char name).

(** The field [k] of the record that a run returned. *)
Definition field_of (k : string) (r : result content) : result (option value) :=
  c ← r; Ok (c !! k).

(** The exception that a run raised, if it did. *)
Definition raised {A} (r : result A) : option exn :=
  match r with
  | Ok _ => None
  | Raise e => Some e
  end.

(** The record in memory after [__init__] on the given administration
    file, and the JSON object that [__init__] left in the file. *)
Definition loaded `{env : Env} (file : option content) : result content :=
  r ← init file; Ok r.1.1.

Definition persisted `{env : Env} (file : option content) : result content :=
  r ← init file; Ok r.1.2.

(** The first value listed for [k]. *)
Fixpoint first_value (k : string) (l : list (string * value)) : option value :=
  match l with
  | [] => None
  | (k', v) :: l' => if String.eqb k' k then Some v else first_value k l'
  end.

Section Vocabulary.
Context `{env : Env}.

(** What [update] hands to [utcfromtimestamp] for the stored value [v] of
    the field [index]: its [float] when the field is in the list of the
    float loop, the value itself otherwise. *)
Definition timestamp_operand (index : string) (v : value) : result value :=
  if bool_decide (index ∈ float_indexes) && negb (isinstance_float v)
  then f ← py_float v; Ok (VFloat f)
  else Ok v.

(** The stages of [update]: the record after each block of the source. *)
Inductive update_trace (c c' : content) : Prop :=
| UpdateTrace (files : list string) (c1 c2 c3 c4 c5 c6 : content) (epoch_dt : datetime) :
    to_delete (<["name" := VStr GIT_BASE_NAME]> c) = Ok files →
    update_ping (<["name" := VStr GIT_BASE_NAME]> c) = Ok c1 →
    for_each coerce_bool ["currently_under_test"; "ping_enabled"]
      (update_custom_config_again (update_custom_config (update_raw_link c1))) = Ok c2 →
    for_each coerce_float float_indexes c2 = Ok c3 →
    utcfromtimestamp (VInt 0) = Ok epoch_dt →
    for_each (convert_timestamp epoch_dt) timestamp_indexes c3 = Ok c4 →
    for_each (convert_datetime epoch_dt) datetime_indexes c4 = Ok c5 →
    for_each convert_uuid uuid_indexes c5 = Ok c6 →
    c6 !! "name" = Some (VStr GIT_BASE_NAME) →
    c' = <["platform_container_name" := VStr (container_name GIT_BASE_NAME)]>
           (<["repo" := VStr repo_name]> c6) →
    update_trace c c'.

End Vocabulary.

(** * Vocabulary of the further properties *)

(** [p] holds of every character of [s]. *)
Fixpoint string_forall (p : ascii → bool) (s : string) : bool :=
  match s with
  | EmptyString => true
  | String c s' => p c && string_forall p s'
  end.

(** A character that a container name can hold: no space, bracket,
    parenthesis or dot, and no letter that [lower] changes. *)
Definition container_char_ok (c : ascii) : bool :=
  negb (Ascii.eqb c " ") && negb (Ascii.eqb c ".") && negb (is_bracket c)
  && Ascii.eqb (ascii_lower c) c.

(** The fields that [update] assigns whatever the record holds. *)
Definition derived_indexes : list string := ["name"; "repo"; "platform_container_name"].

(** Every field that [update] can assign: the names of its lists and of
    its assignments. *)
Definition managed_indexes : list string :=
  (["name"; "ping"; "raw_link"; "custom_pyfunceble_config";
    "currently_under_test"; "ping_enabled"]
   ++ float_indexes ++ timestamp_indexes ++ datetime_indexes ++ uuid_indexes
   ++ ["repo"; "platform_container_name"])%list.

(** The keys of the dictionary [indexes] of [create_missing_index]. *)
Definition default_indexes : list string :=
  ["currently_under_test"; "custom_pyfunceble_config"; "days_until_next_test";
   "finish_datetime"; "finish_timestamp"; "last_download_datetime";
   "last_download_timestamp"; "latest_part_finish_timestamp";
   "latest_part_start_timestamp"; "latest_part_finish_datetime";
   "latest_part_start_datetime"; "name"; "repo"; "platform_container_name";
   "platform_description"; "own_management"; "ping"; "ping_enabled"; "raw_link";
   "start_datetime"; "start_timestamp"; "live_update"; "platform_container_id";
   "platform_remote_source_id"; "platform_optout"].

(** A list of strings that all start with ['@']. *)
Definition mentions (v : value) : Prop :=
  ∃ l : list string, v = VList (VStr <$> l) ∧ Forall (λ s, startswith_at s = true) l.

(** A value that [store] turns into one that [json] encodes, under the
    key [k]: a JSON value, a [datetime] under a key that ends in
    [_timestamp] or [_datetime], or a UUID. *)
Definition storable (k : string) (v : value) : Prop :=
  match v with
  | VDatetime _ => endswith k "_timestamp" = true ∨ endswith k "_datetime" = true
  | VUUID _ => True
  | _ => json_encodable v = true
  end.

Section FurtherVocabulary.
Context `{env : Env}.

(** What [update] leaves in [custom_pyfunceble_config]: the flattened
    dictionary when the field held a non-empty one, an empty dictionary
    otherwise. *)
Definition normal_config (v : value) : value :=
  match v with
  | VDict (kv :: d) => VDict (flatten (kv :: d))
  | _ => VDict []
  end.

(** What [update] leaves in a datetime field: the parsed instant of a
    non-empty string that parses, the epoch otherwise. *)
Definition normal_datetime (epoch_dt : datetime) (v : value) : datetime :=
  match v with
  | VStr s => if String.eqb s "" then epoch_dt
              else default epoch_dt (fromisoformat_str s)
  | _ => epoch_dt
  end.

End FurtherVocabulary.

(** * Properties *)

(** ** The exception monad *)

Lemma bind_Ok {A B} (m : result A) (f : A → result B) (b : B) :
  m ≫= f = Ok b ↔ ∃ a, m = Ok a ∧ f a = Ok b.
Proof.
  destruct m as [a|e]; simpl; split.
  - intros H. exists a. done.
  - intros (a' & [= ->] & H). done.
  - intros [=].
  - intros (a' & [=] & _).
Qed.

Lemma Ok_inj {A} (a b : A) : Ok a = Ok b → a = b.
Proof. by intros [= ->]. Qed.

Lemma field_of_Ok (k : string) (r : result content) (x : option value) :
  field_of k r = Ok x ↔ ∃ c, r = Ok c ∧ c !! k = x.
Proof.
  unfold field_of. rewrite bind_Ok. split.
  - intros (c & -> & [= <-]). eauto.
  - intros (c & -> & <-). eauto.
Qed.

Lemma raised_Some {A} (r : result A) (e : exn) : raised r = Some e ↔ r = Raise e.
Proof. destruct r; simpl; split; congruence. Qed.

Lemma bind_Raise {A B} (m : result A) (f : A → result B) (e : exn) :
  m = Raise e → m ≫= f = Raise e.
Proof. intros ->. done. Qed.

(** Splits a hypothesis [x ← m; k = Ok b] into [m = Ok a] and [k a = Ok b]. *)
Ltac bind_inv H :=
  let a := fresh "c" in
  let Ha := fresh "Hstep" in
  apply bind_Ok in H; destruct H as (a & Ha & H).

(** ** Which fields a step writes *)

Lemma writes_for_each body l :
  (∀ index, index ∈ l → writes [index] (body index)) →
  writes l (for_each body l).
Proof.
  induction l as [|index l IH]; intros Hbody c c' H k Hk; simpl in H.
  - by injection H as <-.
  - bind_inv H.
    rewrite (IH (λ i Hi, Hbody i (list_elem_of_further _ _ _ Hi)) _ _ H k)
      by (intros Hin; apply Hk; by right).
    apply (Hbody index (list_elem_of_here _ _) _ _ Hstep).
    rewrite list_elem_of_singleton. intros ->. apply Hk. by left.
Qed.

(** A loop whose body returns the record unchanged outside [index] keeps
    the field [k] when [k] is not in the list. *)
Lemma for_each_other body l c c' k :
  (∀ index, writes [index] (body index)) →
  for_each body l c = Ok c' → k ∉ l → c' !! k = c !! k.
Proof. intros Hbody H Hk. eapply writes_for_each; eauto. Qed.

(** When [index] occurs once in the list, the loop leaves in it what its
    own iteration put there. *)
Lemma for_each_at body l c c' index :
  (∀ i, writes [i] (body i)) →
  NoDup l → index ∈ l →
  for_each body l c = Ok c' →
  ∃ c0 c1, c0 !! index = c !! index ∧ body index c0 = Ok c1 ∧ c' !! index = c1 !! index.
Proof.
  intros Hbody. revert c.
  induction l as [|i l IH]; intros c Hnd Hin H; [by apply elem_of_nil in Hin|].
  simpl in H. bind_inv H. apply NoDup_cons in Hnd as [Hni Hnd].
  apply elem_of_cons in Hin as [->|Hin].
  - exists c, c0. split_and!; [done..|].
    by apply (for_each_other body l c0 c' i).
  - destruct (IH c0 Hnd Hin H) as (d0 & d1 & Hd0 & Hd & Hd1).
    exists d0, d1. split_and!; [|done..].
    rewrite Hd0. apply (Hbody i _ _ Hstep).
    rewrite list_elem_of_singleton. intros ->. done.
Qed.

(** Closes a decidable goal on concrete field names by evaluation. *)
Ltac by_decide := apply (bool_decide_unpack _); vm_compute; exact I.

(** Proves that a concrete list of field names has no duplicates. *)
Ltac by_NoDup := repeat (apply NoDup_cons_2; [by_decide|]); apply NoDup_nil_2.

Section Properties.
Context `{env : Env}.

Lemma writes_coerce_bool index : writes [index] (coerce_bool index).
Proof.
  intros c c' H k Hk. rewrite list_elem_of_singleton in Hk.
  unfold coerce_bool in H. destruct (c !! index) as [v|]; [|by injection H as <-].
  destruct (negb (isinstance_bool v)); [|by injection H as <-].
  bind_inv H. injection H as <-. by rewrite lookup_insert_ne.
Qed.

Lemma writes_coerce_float index : writes [index] (coerce_float index).
Proof.
  intros c c' H k Hk. rewrite list_elem_of_singleton in Hk.
  unfold coerce_float in H. destruct (c !! index) as [v|]; [|by injection H as <-].
  destruct (negb (isinstance_float v)); [|by injection H as <-].
  bind_inv H. injection H as <-. by rewrite lookup_insert_ne.
Qed.

Lemma writes_convert_timestamp epoch_dt index :
  writes [index] (convert_timestamp epoch_dt index).
Proof.
  intros c c' H k Hk. rewrite list_elem_of_singleton in Hk.
  unfold convert_timestamp in H. destruct (c !! index) as [v|]; [|by injection H as <-].
  destruct (negb (isinstance_datetime v)); [|by injection H as <-].
  destruct (utcfromtimestamp v) as [t|[]]; try discriminate;
    injection H as <-; by rewrite lookup_insert_ne.
Qed.

Lemma writes_convert_datetime epoch_dt index :
  writes [index] (convert_datetime epoch_dt index).
Proof.
  intros c c' H k Hk. rewrite list_elem_of_singleton in Hk.
  unfold convert_datetime in H. destruct (c !! index) as [v|]; [|by injection H as <-].
  destruct (truthy v && negb (isinstance_datetime v)).
  - destruct (fromisoformat v) as [t|[]]; try discriminate;
      injection H as <-; by rewrite lookup_insert_ne.
  - injection H as <-; by rewrite lookup_insert_ne.
Qed.

Lemma writes_convert_uuid index : writes [index] (convert_uuid index).
Proof.
  intros c c' H k Hk. rewrite list_elem_of_singleton in Hk.
  unfold convert_uuid in H. destruct (c !! index) as [v|]; [|by injection H as <-].
  destruct (truthy v && negb (isinstance_UUID v)).
  - bind_inv H. injection H as <-. by rewrite lookup_insert_ne.
  - injection H as <-; by rewrite lookup_insert_ne.
Qed.

Lemma writes_update_ping : writes ["ping"] update_ping.
Proof.
  intros c c' H k Hk. rewrite list_elem_of_singleton in Hk.
  unfold update_ping in H. destruct (c !! "ping") as [v|]; [|by injection H as <-].
  bind_inv H. bind_inv H. injection H as <-. by rewrite lookup_insert_ne.
Qed.

Lemma update_raw_link_other c k :
  k ≠ "raw_link" → update_raw_link c !! k = c !! k.
Proof.
  intros Hk. unfold update_raw_link. destruct (c !! "raw_link") as [v|]; [|done].
  destruct (isinstance_str v && negb (truthy v)); [|done]. by rewrite lookup_insert_ne.
Qed.

Lemma update_custom_config_other c k :
  k ≠ "custom_pyfunceble_config" → update_custom_config c !! k = c !! k.
Proof.
  intros Hk. unfold update_custom_config.
  destruct (c !! "custom_pyfunceble_config") as [v|]; [|done].
  destruct (truthy v); [destruct v|]; by rewrite lookup_insert_ne.
Qed.

Lemma update_custom_config_again_other c k :
  k ≠ "custom_pyfunceble_config" → update_custom_config_again c !! k = c !! k.
Proof.
  intros Hk. unfold update_custom_config_again.
  destruct (c !! "custom_pyfunceble_config") as [v|]; [|done].
  destruct (truthy v && negb (isinstance_dict v)); [|done]. by rewrite lookup_insert_ne.
Qed.

Lemma update_container_name_Ok c c' :
  update_container_name c = Ok c' →
  ∃ name, c !! "name" = Some (VStr name) ∧
          c' = <["platform_container_name" := VStr (container_name name)]> c.
Proof.
  unfold update_container_name. intros H.
  destruct (c !! "name") as [[]|]; try discriminate. injection H as <-. eauto.
Qed.

Lemma update_name_kept c1 c2 c3 c4 c5 c6 epoch :
  for_each coerce_bool ["currently_under_test"; "ping_enabled"]
      (update_custom_config_again (update_custom_config (update_raw_link c1))) = Ok c2 →
  for_each coerce_float float_indexes c2 = Ok c3 →
  for_each (convert_timestamp epoch) timestamp_indexes c3 = Ok c4 →
  for_each (convert_datetime epoch) datetime_indexes c4 = Ok c5 →
  for_each convert_uuid uuid_indexes c5 = Ok c6 →
  ∀ k, k ∉ (["raw_link"; "custom_pyfunceble_config"; "currently_under_test"; "ping_enabled"]
         ++ float_indexes ++ timestamp_indexes ++ datetime_indexes ++ uuid_indexes)%list →
  c6 !! k = c1 !! k.
Proof.
  intros H2 H3 H4 H5 H6 k Hk.
  rewrite !not_elem_of_app in Hk. destruct Hk as (Hk1 & Hk2 & Hk3 & Hk4 & Hk5).
  rewrite !not_elem_of_cons in Hk1. destruct Hk1 as (? & ? & ? & ? & _).
  rewrite (for_each_other _ _ _ _ k writes_convert_uuid H6 Hk5).
  rewrite (for_each_other _ _ _ _ k (writes_convert_datetime epoch) H5 Hk4).
  rewrite (for_each_other _ _ _ _ k (writes_convert_timestamp epoch) H4 Hk3).
  rewrite (for_each_other _ _ _ _ k writes_coerce_float H3 Hk2).
  rewrite (for_each_other _ _ _ _ k writes_coerce_bool H2)
    by (rewrite !not_elem_of_cons; split_and!; [done..|apply not_elem_of_nil]).
  rewrite update_custom_config_again_other, update_custom_config_other,
    update_raw_link_other by done.
  done.
Qed.

Lemma update_Ok_trace c c' : update c = Ok c' → update_trace c c'.
Proof.
  unfold update. intros H.
  apply bind_Ok in H as (files & Hfiles & H).
  apply bind_Ok in H as (c1 & H1 & H).
  apply bind_Ok in H as (c2 & H2 & H).
  apply bind_Ok in H as (c3 & H3 & H).
  apply bind_Ok in H as (epoch & He & H).
  apply bind_Ok in H as (c4 & H4 & H).
  apply bind_Ok in H as (c5 & H5 & H).
  apply bind_Ok in H as (c6 & H6 & H).
  assert (c6 !! "name" = Some (VStr GIT_BASE_NAME)) as Hname.
  { rewrite (update_name_kept _ _ _ _ _ _ _ H2 H3 H4 H5 H6) by by_decide.
    rewrite (writes_update_ping _ _ H1) by by_decide.
    apply lookup_insert_eq. }
  apply update_container_name_Ok in H as (name & Hn & ->).
  rewrite lookup_insert_ne in Hn by done. rewrite Hname in Hn. injection Hn as <-.
  by econstructor; eauto.
Qed.

Create HintDb writes.

#[local] Hint Resolve writes_coerce_bool writes_coerce_float writes_convert_timestamp
  writes_convert_datetime writes_convert_uuid : writes.

(** Rewrites the lookup of a field in a later stage of [update] into its
    lookup in an earlier one, across the steps that do not write it. *)
Ltac frame :=
  repeat match goal with
  | H : for_each ?body ?l ?c = Ok ?c' |- context [ ?c' !! ?k ] =>
      rewrite (for_each_other body l c c' k ltac:(auto with writes) H) by by_decide
  | H : update_ping ?c = Ok ?c' |- context [ ?c' !! ?k ] =>
      rewrite (writes_update_ping c c' H k) by by_decide
  | |- context [ update_raw_link ?c !! ?k ] =>
      rewrite (update_raw_link_other c k) by done
  | |- context [ update_custom_config ?c !! ?k ] =>
      rewrite (update_custom_config_other c k) by done
  | |- context [ update_custom_config_again ?c !! ?k ] =>
      rewrite (update_custom_config_again_other c k) by done
  | |- context [ <[?i := ?v]> ?c !! ?k ] =>
      rewrite (lookup_insert_ne c i k v) by done
  end.

(** Names the stages of a run of [update] that returned. *)
Ltac update_inv H :=
  destruct (update_Ok_trace _ _ H)
    as [files c1 c2 c3 c4 c5 c6 epoch_dt
        Hdel Hping Hbool Hfloat Hepoch Hts Hdt Huuid Hname Hfinal].

(** ** [repo] *)

(** C7: after every run of [update] that returns, the field [repo] is the
    string [{owner}/{name}] of the current project identity, whatever the
    loaded record held under [repo]. *)
Theorem update_repo (c c' : content) :
  update c = Ok c' →
  c' !! "repo" = Some (VStr (GIT_REPO_OWNER +:+ "/" +:+ GIT_BASE_NAME)).
Proof.
  intros H. update_inv H. subst c'. frame. apply lookup_insert_eq.
Qed.

(** ** [platform_container_name] *)

Lemma append_String c s1 s2 : String c s1 +:+ s2 = String c (s1 +:+ s2).
Proof. done. Qed.

(** The chain of [lower] and [replace] of the source is the derivation
    taken character by character. *)
Lemma replace_chain_expand (name : string) :
  replace "." "-" (replace ")" "" (replace "(" "" (replace "]" ""
    (replace "[" "" (replace " " "-" (lower name))))))
  = expand derived_char name.
Proof.
  induction name as [|a name IH]; [done|].
  cbn [lower expand]. rewrite <- IH. clear IH.
  generalize (lower name). intros rest.
  destruct a as [[] [] [] [] [] [] [] []]; reflexivity.
Qed.

Lemma container_name_derived (name : string) :
  container_name name = derived_container_name name.
Proof. unfold container_name, derived_container_name. by rewrite replace_chain_expand. Qed.

Lemma update_name (c c' : content) :
  update c = Ok c' → c' !! "name" = Some (VStr GIT_BASE_NAME).
Proof.
  intros H. update_inv H. subst c'. frame. apply lookup_insert_eq.
Qed.

(** C3, amended: after [update], [platform_container_name] is the [name]
    field in lower case with every space and every dot replaced by a dash
    and the characters [[ ] ( )] removed, cut to 128 characters; the name
    [My [Cool] List.txt] yields [my-cool-list-txt]. *)
Theorem update_platform_container_name (c c' : content) :
  update c = Ok c' →
  ∃ name,
    c' !! "name" = Some (VStr name) ∧
    c' !! "platform_container_name" = Some (VStr (derived_container_name name)) ∧
    derived_container_name "My [Cool] List.txt" = "my-cool-list-txt".
Proof.
  intros H. exists GIT_BASE_NAME. split_and!; [by eapply update_name| |done].
  update_inv H. subst c'.
  rewrite lookup_insert_eq. by rewrite container_name_derived.
Qed.

(** ** [ping] *)

Lemma mapM_ping_entry (l : list string) :
  mapM ping_entry (VStr <$> l) = Ok (VStr <$> (mention <$> l)).
Proof.
  induction l as [|s l IH]; [done|].
  cbn [fmap list_fmap mapM]. by rewrite IH.
Qed.

Lemma startswith_at_mention (s : string) : startswith_at (mention s) = true.
Proof. unfold mention. by destruct (startswith_at s) eqn:E. Qed.

Lemma startswith_at_leading (s : string) :
  startswith_at s = true ↔ (0 < leading_ats s)%nat.
Proof.
  destruct s as [|a s]; simpl; [split; [done|lia]|].
  destruct (Ascii.eqb a "@"); split; (done || lia).
Qed.

Lemma leading_ats_mention (s : string) :
  (leading_ats s ≤ 1)%nat → leading_ats (mention s) = 1%nat.
Proof.
  unfold mention. destruct (startswith_at s) eqn:E.
  - apply startswith_at_leading in E. lia.
  - intros _. change ("@" +:+ s) with (String "@" s). cbn [leading_ats Ascii.eqb].
    destruct s as [|a s]; [done|]. simpl in E. cbn [leading_ats]. by rewrite E.
Qed.

(** C6, amended: if [ping] is a list of strings, [update] rewrites it so
    that every entry lacking a leading ['@'] gains exactly one, entries
    starting with ['@'] pass through unchanged, order and length are
    preserved, and every entry of the output starts with ['@']: with
    exactly one when the entry did not already start with two or more. *)
Theorem update_ping_mentions (c c' : content) (l : list string) :
  c !! "ping" = Some (VList (VStr <$> l)) →
  update c = Ok c' →
  ∃ l',
    c' !! "ping" = Some (VList (VStr <$> l')) ∧
    length l' = length l ∧
    ∀ i s, l !! i = Some s →
      ∃ s', l' !! i = Some s' ∧
            (startswith_at s = false → s' = "@" +:+ s) ∧
            (startswith_at s = true → s' = s) ∧
            startswith_at s' = true ∧
            ((leading_ats s ≤ 1)%nat → leading_ats s' = 1%nat).
Proof.
  intros Hl H. exists (mention <$> l). split_and!.
  - update_inv H. subst c'. frame.
    unfold update_ping in Hping. rewrite lookup_insert_ne in Hping by done.
    rewrite Hl in Hping. cbn [iterate mbind result_bind] in Hping.
    rewrite mapM_ping_entry in Hping. injection Hping as <-. apply lookup_insert_eq.
  - apply length_fmap.
  - intros i s Hi. exists (mention s). split_and!.
    + by rewrite list_lookup_fmap, Hi.
    + unfold mention. by intros ->.
    + unfold mention. by intros ->.
    + apply startswith_at_mention.
    + apply leading_ats_mention.
Qed.

(** ** [get_ping_for_commit] *)

Lemma mapM_join_item (l : list string) : mapM join_item (VStr <$> l) = Ok l.
Proof.
  induction l as [|s l IH]; [done|]. cbn [fmap list_fmap mapM]. by rewrite IH.
Qed.

Lemma get_ping_for_commit_not_True (c : content) :
  (∀ v, c !! "ping_enabled" = Some v → is_True v = false) →
  get_ping_for_commit c = Ok "".
Proof.
  intros H. unfold get_ping_for_commit.
  destruct (c !! "ping_enabled") as [enabled|]; [|done].
  destruct (c !! "ping") as [ping|]; [|done]. by rewrite (H enabled).
Qed.

(** C8: [get_ping_for_commit] returns the space-joined [ping] sequence
    when [ping_enabled] is true and [ping] is non-empty, and the empty
    string otherwise: always when [ping_enabled] is false, whatever [ping]
    holds; and ["@alice @bob"] for [ping_enabled = True] and
    [ping = ["@alice", "@bob"]]. *)
Theorem get_ping_for_commit_text (c : content) :
  (∀ l, c !! "ping_enabled" = Some (VBool true) →
        c !! "ping" = Some (VList (VStr <$> l)) → l ≠ [] →
        get_ping_for_commit c = Ok (join " " l)) ∧
  (c !! "ping_enabled" ≠ Some (VBool true)
   ∨ (∀ ping, c !! "ping" = Some ping → truthy ping = false) →
   get_ping_for_commit c = Ok "") ∧
  (c !! "ping_enabled" = Some (VBool false) → get_ping_for_commit c = Ok "") ∧
  get_ping_for_commit
    (<["ping_enabled" := VBool true]> {["ping" := VList [VStr "@alice"; VStr "@bob"]]})
  = Ok "@alice @bob".
Proof.
  split_and!.
  - intros l He Hp Hl. unfold get_ping_for_commit. rewrite He, Hp.
    assert (truthy (VList (VStr <$> l)) = true) as -> by by destruct l.
    cbn [is_True andb iterate mbind result_bind]. by rewrite mapM_join_item.
  - intros [He|Hp].
    + apply get_ping_for_commit_not_True. intros v Hv.
      by destruct v as [| [] | | | | | | |].
    + unfold get_ping_for_commit.
      destruct (c !! "ping_enabled") as [enabled|]; [|done].
      destruct (c !! "ping") as [ping|]; [|done].
      rewrite (Hp ping) by done. by rewrite andb_false_r.
  - intros He. apply get_ping_for_commit_not_True. intros v Hv.
    rewrite He in Hv. by injection Hv as <-.
  - reflexivity.
Qed.

(** C10: [get_ping_for_commit] returns the empty string whenever the key
    [ping_enabled] or the key [ping] is absent, and whenever [ping_enabled]
    holds a value that is not the boolean [True] itself, truthy or not. *)
Theorem get_ping_for_commit_empty (c : content) :
  c !! "ping_enabled" = None ∨ c !! "ping" = None
  ∨ (∃ v, c !! "ping_enabled" = Some v ∧ v ≠ VBool true) →
  get_ping_for_commit c = Ok "".
Proof.
  intros [He|[Hp|(v & He & Hv)]].
  - unfold get_ping_for_commit. by rewrite He.
  - unfold get_ping_for_commit. rewrite Hp. by destruct (c !! "ping_enabled").
  - apply get_ping_for_commit_not_True. intros v' Hv'.
    rewrite He in Hv'. injection Hv' as <-.
    by destruct v as [| [] | | | | | | |].
Qed.

(** ** The identifier fields *)

(** What the iteration of a loop of [update] finds in a field and leaves
    in it: the loop body ran on a record holding the loaded value, and the
    final record holds what the body put there. *)
Lemma update_uuid_iteration (c c' : content) (index : string) :
  update c = Ok c' → index ∈ uuid_indexes →
  ∃ c0 c1, c0 !! index = c !! index ∧ convert_uuid index c0 = Ok c1
           ∧ c' !! index = c1 !! index.
Proof.
  intros H Hin. update_inv H. subst c'.
  assert (NoDup uuid_indexes) as Hnd by by_NoDup.
  destruct (for_each_at _ _ _ _ index writes_convert_uuid Hnd Hin Huuid)
    as (d0 & d1 & H0 & Hbody & H1).
  exists d0, d1. split_and!; [|done|].
  - rewrite H0. clear Huuid H0 Hbody H1 Hnd.
    repeat (apply elem_of_cons in Hin as [->|Hin]); [by frame..|].
    by apply elem_of_nil in Hin.
  - rewrite <- H1. clear H0 Hbody H1 Hnd.
    repeat (apply elem_of_cons in Hin as [->|Hin]); [by frame..|].
    by apply elem_of_nil in Hin.
Qed.

(** What the identifier loop leaves in a field, by the cases of its test. *)
Lemma update_uuid_cases (c c' : content) (index : string) (v : value) :
  index ∈ uuid_indexes → c !! index = Some v → update c = Ok c' →
  if truthy v && negb (isinstance_UUID v)
  then ∃ u, py_UUID v = Ok u ∧ c' !! index = Some (VUUID u)
  else c' !! index = Some VNone.
Proof.
  intros Hin Hv H.
  destruct (update_uuid_iteration _ _ _ H Hin) as (d0 & d1 & H0 & Hbody & ->).
  rewrite Hv in H0. unfold convert_uuid in Hbody. rewrite H0 in Hbody.
  destruct (truthy v && negb (isinstance_UUID v)).
  - apply bind_Ok in Hbody as (u & Hp & Hbody). apply Ok_inj in Hbody as <-.
    exists u. split; [done|]. apply lookup_insert_eq.
  - apply Ok_inj in Hbody as <-. apply lookup_insert_eq.
Qed.


(** ** The float loop *)

(** What the float loop leaves in a field: the operand that the timestamp
    loop will read. *)
Lemma coerce_float_loop (c c' : content) (index : string) (v : value) :
  for_each coerce_float float_indexes c = Ok c' → c !! index = Some v →
  ∃ w, timestamp_operand index v = Ok w ∧ c' !! index = Some w.
Proof.
  intros H Hv. unfold timestamp_operand. case_bool_decide as Hin; cbn [andb].
  - assert (NoDup float_indexes) as Hnd by by_NoDup.
    destruct (for_each_at _ _ _ _ index writes_coerce_float Hnd Hin H)
      as (d0 & d1 & H0 & Hbody & ->).
    rewrite Hv in H0. unfold coerce_float in Hbody. rewrite H0 in Hbody.
    destruct (negb (isinstance_float v)).
    + apply bind_Ok in Hbody as (f & -> & Hbody). injection Hbody as <-.
      exists (VFloat f). split; [done|]. apply lookup_insert_eq.
    + injection Hbody as <-. eauto.
  - exists v. split; [done|]. rewrite <- Hv.
    by apply (for_each_other coerce_float float_indexes c c' index writes_coerce_float).
Qed.

(** The fields that the float loop does coerce, and the two that the
    joined literal leaves out. *)
Lemma coerce_float_loop_coerces (c c' : content) (index : string) (v : value) :
  index ∈ ["days_until_next_test"; "finish_timestamp";
           "latest_part_start_timestamp"; "start_timestamp"] →
  c !! index = Some v → isinstance_float v = false →
  for_each coerce_float float_indexes c = Ok c' →
  ∃ f, py_float v = Ok f ∧ c' !! index = Some (VFloat f).
Proof.
  intros Hin Hv Hf H. destruct (coerce_float_loop _ _ _ _ H Hv) as (w & Hw & ->).
  unfold timestamp_operand in Hw. rewrite Hf in Hw.
  rewrite bool_decide_eq_true_2 in Hw.
  - apply bind_Ok in Hw as (f & -> & Hw). injection Hw as <-. eauto.
  - repeat (apply elem_of_cons in Hin as [->|Hin]); [by_decide..|].
    by apply elem_of_nil in Hin.
Qed.

Lemma coerce_float_loop_skips (c c' : content) (index : string) :
  index ∈ ["last_download_timestamp"; "latest_part_finish_timestamp"] →
  for_each coerce_float float_indexes c = Ok c' →
  c' !! index = c !! index.
Proof.
  intros Hin H.
  apply (for_each_other coerce_float float_indexes c c' index writes_coerce_float H).
  repeat (apply elem_of_cons in Hin as [->|Hin]); [by_decide..|].
  by apply elem_of_nil in Hin.
Qed.

(** ** The timestamp loop *)

Lemma update_timestamp_iteration (c c' : content) (index : string) :
  update c = Ok c' → index ∈ timestamp_indexes →
  ∃ b0 b1 d0 d1 epoch_dt,
    b0 !! index = c !! index ∧
    for_each coerce_float float_indexes b0 = Ok b1 ∧
    utcfromtimestamp (VInt 0) = Ok epoch_dt ∧
    d0 !! index = b1 !! index ∧
    convert_timestamp epoch_dt index d0 = Ok d1 ∧
    c' !! index = d1 !! index.
Proof.
  intros H Hin. update_inv H. subst c'.
  assert (NoDup timestamp_indexes) as Hnd by by_NoDup.
  destruct (for_each_at _ _ _ _ index (writes_convert_timestamp epoch_dt) Hnd Hin Hts)
    as (d0 & d1 & H0 & Hbody & H1).
  exists c2, c3, d0, d1, epoch_dt. split_and!; try done.
  - clear Hfloat Hts H0 Hbody H1 Hnd.
    repeat (apply elem_of_cons in Hin as [->|Hin]); [by frame..|].
    by apply elem_of_nil in Hin.
  - rewrite <- H1. clear Hts H0 Hbody H1 Hnd.
    repeat (apply elem_of_cons in Hin as [->|Hin]); [by frame..|].
    by apply elem_of_nil in Hin.
Qed.

(** What [update] leaves in a timestamp field: the instant of the operand,
    or the epoch where the conversion raised [OSError]. *)
Lemma update_timestamp_field (c c' : content) (index : string) (v : value) :
  update c = Ok c' → index ∈ timestamp_indexes → c !! index = Some v →
  ∃ w epoch_dt,
    timestamp_operand index v = Ok w ∧
    utcfromtimestamp (VInt 0) = Ok epoch_dt ∧
    ((∃ t, w = VDatetime t ∧ c' !! index = Some (VDatetime t))
     ∨ (isinstance_datetime w = false ∧
        ∃ t, utcfromtimestamp w = Ok t ∧ c' !! index = Some (VDatetime t))
     ∨ (isinstance_datetime w = false ∧
        utcfromtimestamp w = Raise OSError ∧ c' !! index = Some (VDatetime epoch_dt))).
Proof.
  intros H Hin Hv.
  destruct (update_timestamp_iteration _ _ _ H Hin)
    as (b0 & b1 & d0 & d1 & epoch_dt & Hb0 & Hfloat & Hepoch & Hd0 & Hbody & ->).
  rewrite Hv in Hb0. destruct (coerce_float_loop _ _ _ _ Hfloat Hb0) as (w & Hw & Hb1).
  exists w, epoch_dt. split_and!; [done..|].
  rewrite Hb1 in Hd0. unfold convert_timestamp in Hbody. rewrite Hd0 in Hbody.
  destruct (isinstance_datetime w) eqn:Hdt; cbn [negb] in Hbody.
  - left. destruct w; try discriminate. injection Hbody as <-. eauto.
  - right. destruct (utcfromtimestamp w) as [t|[]]; try discriminate;
      injection Hbody as <-; [left|right]; rewrite lookup_insert_eq; eauto.
Qed.

Lemma update_timestamp_is_datetime (c c' : content) (index : string) :
  update c = Ok c' → index ∈ timestamp_indexes → is_Some (c !! index) →
  ∃ t, c' !! index = Some (VDatetime t).
Proof.
  intros H Hin [v Hv].
  destruct (update_timestamp_field _ _ _ _ H Hin Hv)
    as (w & epoch_dt & _ & _ & [(t & _ & ?)|[(_ & t & _ & ?)|(_ & _ & ?)]]); eauto.
Qed.

(** ** A field set beside the ones a step reads *)


















(** ** [create_missing_index] and [clean] *)

Lemma foldl_create_index (l : list (string * value)) (c : content) (k : string) :
  foldl create_index c l !! k
  = match c !! k with Some v => Some v | None => first_value k l end.
Proof.
  revert c. induction l as [|[k' v'] l IH]; intros c; cbn [foldl first_value].
  - by destruct (c !! k).
  - rewrite IH. unfold create_index. cbn [fst snd].
    destruct (String.eqb_spec k' k) as [->|Hne].
    + destruct (c !! k) as [v|] eqn:E; [by rewrite E|]. by rewrite lookup_insert_eq.
    + destruct (c !! k') as [v|] eqn:E; [done|]. by rewrite lookup_insert_ne.
Qed.

(** A field that the record holds is kept by [create_missing_index]. *)
Lemma create_missing_index_present (c c' : content) (k : string) (v : value) :
  create_missing_index c = Ok c' → c !! k = Some v → c' !! k = Some v.
Proof.
  unfold create_missing_index. intros H Hk.
  apply bind_Ok in H as (d & _ & H). apply bind_Ok in H as (e & _ & H).
  apply bind_Ok in H as (ts & _ & H). apply Ok_inj in H. subst c'.
  by rewrite foldl_create_index, Hk.
Qed.

(** A timestamp field that the record lacks is created as a [float]. *)
Lemma create_missing_index_timestamp (c c' : content) (index : string) :
  create_missing_index c = Ok c' → index ∈ timestamp_indexes → c !! index = None →
  ∃ f, c' !! index = Some (VFloat f).
Proof.
  unfold create_missing_index. intros H Hin Hk.
  apply bind_Ok in H as (d & _ & H). apply bind_Ok in H as (e & _ & H).
  apply bind_Ok in H as (ts & _ & H). apply Ok_inj in H. subst c'.
  exists ts. rewrite foldl_create_index, Hk.
  repeat (apply elem_of_cons in Hin as [->|Hin]); [reflexivity..|].
  by apply elem_of_nil in Hin.
Qed.

Lemma clean_lookup (c : content) (k : string) :
  k ∉ obsolete_indexes → clean c !! k = c !! k.
Proof.
  unfold clean. generalize obsolete_indexes. intros l. revert c.
  induction l as [|i l IH]; intros c Hk; [done|].
  apply not_elem_of_cons in Hk as [Hne Hk]. cbn [foldl].
  rewrite IH by done. by rewrite lookup_delete_ne.
Qed.

Lemma clean_obsolete (c : content) (k : string) :
  k ∈ obsolete_indexes → clean c !! k = None.
Proof.
  unfold clean. generalize obsolete_indexes. intros l. revert c.
  induction l as [|i l IH]; intros c Hk; [by apply elem_of_nil in Hk|].
  cbn [foldl]. destruct (decide (k ∈ l)) as [Hin|Hnin]; [by apply IH|].
  apply elem_of_cons in Hk as [->|]; [|done].
  assert (∀ l (c : content), i ∉ l → c !! i = None →
            foldl (λ c index, delete index c) c l !! i = None) as Hkeep.
  { clear. induction l as [|j l IH]; intros c Hj Hc; [done|].
    apply not_elem_of_cons in Hj as [? ?]. cbn [foldl]. apply IH; [done|].
    by rewrite lookup_delete_ne. }
  apply Hkeep; [done|]. apply lookup_delete_eq.
Qed.

(** ** Fields that [update] does not create *)

Lemma for_each_absent body (l : list string) (c c' : content) (k : string) :
  (∀ i, writes [i] (body i)) →
  (∀ i d, d !! i = None → body i d = Ok d) →
  c !! k = None → for_each body l c = Ok c' → c' !! k = None.
Proof.
  intros Hw Hskip. revert c. induction l as [|i l IH]; intros c Hk H; cbn in H.
  - by injection H as <-.
  - apply bind_Ok in H as (d & Hd & H). apply (IH d); [|done].
    destruct (decide (i = k)) as [->|Hne].
    + rewrite (Hskip k c Hk) in Hd. by injection Hd as <-.
    + rewrite (Hw i c d Hd k); [done|]. rewrite list_elem_of_singleton. congruence.
Qed.

Lemma update_absent (c c' : content) (k : string) :
  update c = Ok c' → c !! k = None →
  k ∉ ["name"; "repo"; "platform_container_name"] → c' !! k = None.
Proof.
  intros H Hk Hne. rewrite !not_elem_of_cons in Hne. destruct Hne as (? & ? & ? & _).
  update_inv H. subst c'. rewrite !lookup_insert_ne by done.
  eapply (for_each_absent _ _ _ _ k writes_convert_uuid); [|clear Huuid|exact Huuid].
  { intros i d Hi. unfold convert_uuid. by rewrite Hi. }
  eapply (for_each_absent _ _ _ _ k (writes_convert_datetime _)); [|clear Hdt|exact Hdt].
  { intros i d Hi. unfold convert_datetime. by rewrite Hi. }
  eapply (for_each_absent _ _ _ _ k (writes_convert_timestamp _)); [|clear Hts|exact Hts].
  { intros i d Hi. unfold convert_timestamp. by rewrite Hi. }
  eapply (for_each_absent _ _ _ _ k writes_coerce_float); [|clear Hfloat|exact Hfloat].
  { intros i d Hi. unfold coerce_float. by rewrite Hi. }
  eapply (for_each_absent _ _ _ _ k writes_coerce_bool); [|clear Hbool|exact Hbool].
  { intros i d Hi. unfold coerce_bool. by rewrite Hi. }
  assert (c1 !! k = None) as Hc1.
  { destruct (decide (k = "ping")) as [->|Hp].
    - unfold update_ping in Hping. rewrite lookup_insert_ne in Hping by done.
      rewrite Hk in Hping. injection Hping as <-. by rewrite lookup_insert_ne.
    - rewrite (writes_update_ping _ _ Hping k) by (by rewrite list_elem_of_singleton).
      by rewrite lookup_insert_ne. }
  assert (update_raw_link c1 !! k = None) as Hc1'.
  { destruct (decide (k = "raw_link")) as [->|Hp].
    - unfold update_raw_link. by rewrite Hc1.
    - by rewrite update_raw_link_other. }
  assert (update_custom_config (update_raw_link c1) !! k = None) as Hc1''.
  { destruct (decide (k = "custom_pyfunceble_config")) as [->|Hp].
    - unfold update_custom_config. by rewrite Hc1'.
    - by rewrite update_custom_config_other. }
  destruct (decide (k = "custom_pyfunceble_config")) as [->|Hp].
  - unfold update_custom_config_again. by rewrite Hc1''.
  - by rewrite update_custom_config_again_other.
Qed.

(** ** Running the normalisation again *)

Lemma normalize_Ok (c c' : content) :
  normalize c = Ok c' ↔
  ∃ a b, update c = Ok a ∧ create_missing_index a = Ok b ∧ c' = clean b.
Proof.
  unfold normalize. split.
  - intros H. apply bind_Ok in H as (a & Ha & H). apply bind_Ok in H as (b & Hb & H).
    injection H as <-. eauto.
  - intros (a & b & -> & Hb & ->). cbn. by rewrite Hb.
Qed.

(** A second [update] does not return when the first one found a
    timestamp field of the float loop: the field now holds a [datetime],
    which [float()] rejects. *)
Lemma update_again_raises (c c1 : content) (index : string) :
  index ∈ ["finish_timestamp"; "latest_part_start_timestamp"; "start_timestamp"] →
  is_Some (c !! index) → update c = Ok c1 → ∀ c2, update c1 ≠ Ok c2.
Proof.
  intros Hin Hsome H c2 H2.
  assert (index ∈ timestamp_indexes ∧ index ∈ float_indexes) as [Hts Hfl].
  { repeat (apply elem_of_cons in Hin as [->|Hin]); [split; by_decide..|].
    by apply elem_of_nil in Hin. }
  destruct (update_timestamp_is_datetime _ _ _ H Hts Hsome) as (t & Ht).
  destruct (update_timestamp_field _ _ _ _ H2 Hts Ht) as (w & _ & Hw & _).
  unfold timestamp_operand in Hw. rewrite bool_decide_eq_true_2 in Hw by done.
  discriminate.
Qed.

(** A second [update] resets to [None] an identifier that the first one
    parsed. *)
Lemma update_again_drops_uuid (c c1 c2 : content) (index : string) :
  index ∈ uuid_indexes → is_Some (c !! index) →
  update c = Ok c1 → update c1 = Ok c2 → c2 !! index = Some VNone.
Proof.
  intros Hin [v Hv] H1 H2.
  pose proof (update_uuid_cases _ _ _ _ Hin Hv H1) as Hc1.
  destruct (truthy v && negb (isinstance_UUID v)).
  - destruct Hc1 as (u & _ & Hc1). exact (update_uuid_cases _ _ _ _ Hin Hc1 H2).
  - exact (update_uuid_cases _ _ _ _ Hin Hc1 H2).
Qed.

(** C1: the normalisation is never idempotent.  Whatever the record, when
    [update], [create_missing_index] and [clean] return a record, running
    them on that record does not return it again: [finish_timestamp] was
    either loaded, and is now a [datetime] that the float loop rejects, or
    was created as a [float], which the second run turns into a
    [datetime]. *)
Theorem normalize_twice_differs (c c1 : content) :
  normalize c = Ok c1 → normalize c1 ≠ Ok c1.
Proof.
  intros H1 H2.
  apply normalize_Ok in H1 as (a & b & Ha & Hb & ->).
  apply normalize_Ok in H2 as (a' & b' & Ha' & Hb' & Heq).
  assert ("finish_timestamp" ∈ timestamp_indexes) as Hin by by_decide.
  assert ("finish_timestamp" ∉ obsolete_indexes) as Hob by by_decide.
  destruct (c !! "finish_timestamp") as [v|] eqn:Hv.
  - apply (update_again_raises c a "finish_timestamp" ltac:(by_decide)
             ltac:(by rewrite Hv) Ha (clean a')).
    assert (is_Some (a !! "finish_timestamp")) as [x Hx].
    { destruct (update_timestamp_is_datetime _ _ _ Ha Hin) as (t & ->); [by rewrite Hv|done]. }
    pose proof (create_missing_index_present _ _ _ _ Hb Hx) as Hbx.
    assert (is_Some (clean b !! "finish_timestamp")) as Hsome
      by (rewrite clean_lookup, Hbx; done).
    destruct (update_timestamp_is_datetime _ _ _ Ha' Hin Hsome) as (t & Ht).
    exfalso.
    destruct (update_timestamp_field _ _ _ _ Ha' Hin
                (eq_trans (clean_lookup b _ Hob) Hbx)) as (w & _ & Hw & _).
    destruct (update_timestamp_is_datetime _ _ _ Ha Hin) as (t0 & Ht0); [by rewrite Hv|].
    rewrite Ht0 in Hx. injection Hx as <-.
    unfold timestamp_operand in Hw. rewrite bool_decide_eq_true_2 in Hw by by_decide.
    discriminate.
  - assert (a !! "finish_timestamp" = None) as Hnone
      by (apply (update_absent _ _ _ Ha Hv); by_decide).
    destruct (create_missing_index_timestamp _ _ _ Hb Hin Hnone) as (f & Hf).
    assert (clean b !! "finish_timestamp" = Some (VFloat f)) as Hc1
      by (by rewrite clean_lookup).
    destruct (update_timestamp_is_datetime _ _ _ Ha' Hin ltac:(by rewrite Hc1)) as (t & Ht).
    pose proof (create_missing_index_present _ _ _ _ Hb' Ht) as Hb't.
    assert (clean b' !! "finish_timestamp" = Some (VDatetime t)) as Hc2
      by (by rewrite clean_lookup).
    rewrite <- Heq in Hc2. rewrite Hc1 in Hc2. discriminate.
Qed.

(** ** A run of [update] that returns *)

Lemma for_each_skip body (l : list string) (c : content) :
  (∀ i d, d !! i = None → body i d = Ok d) →
  (∀ i, i ∈ l → c !! i = None) →
  for_each body l c = Ok c.
Proof.
  intros Hskip. induction l as [|i l IH]; intros Hl; [done|].
  cbn. rewrite (Hskip i c) by (apply Hl; by left). cbn.
  apply IH. intros j Hj. apply Hl. by right.
Qed.

(** Without an administration file [update] returns, on every host that
    can convert the epoch, the record of the three derived fields. *)
Lemma update_empty_record (epoch_dt : datetime) :
  utcfromtimestamp (VInt 0) = Ok epoch_dt →
  update ∅
  = Ok (<["platform_container_name" := VStr (container_name GIT_BASE_NAME)]>
          (<["repo" := VStr repo_name]> {["name" := VStr GIT_BASE_NAME]})).
Proof.
  intros Hepoch.
  set (c0 := ({["name" := VStr GIT_BASE_NAME]} : content)).
  assert (∀ k, k ≠ "name" → c0 !! k = None) as Hnone
    by (intros k Hk; by apply lookup_singleton_ne).
  assert (∀ l : list string, "name" ∉ l → ∀ i, i ∈ l → c0 !! i = None) as Hlist
    by (intros l Hl i Hi; apply Hnone; by intros ->).
  assert (to_delete c0 = Ok [".administrators"; "update_me.py"; "admin.py"]) as Hdel
    by (unfold to_delete; by rewrite Hnone).
  assert (update_ping c0 = Ok c0) as Hping by (unfold update_ping; by rewrite Hnone).
  assert (update_raw_link c0 = c0) as Hraw by (unfold update_raw_link; by rewrite Hnone).
  assert (update_custom_config c0 = c0) as Hcustom
    by (unfold update_custom_config; by rewrite Hnone).
  assert (update_custom_config_again c0 = c0) as Hagain
    by (unfold update_custom_config_again; by rewrite Hnone).
  assert (for_each coerce_bool ["currently_under_test"; "ping_enabled"] c0 = Ok c0) as Hbool.
  { apply for_each_skip; [|apply Hlist; by_decide].
    intros i d Hi. unfold coerce_bool. by rewrite Hi. }
  assert (for_each coerce_float float_indexes c0 = Ok c0) as Hfloat.
  { apply for_each_skip; [|apply Hlist; by_decide].
    intros i d Hi. unfold coerce_float. by rewrite Hi. }
  assert (for_each (convert_timestamp epoch_dt) timestamp_indexes c0 = Ok c0) as Hts.
  { apply for_each_skip; [|apply Hlist; by_decide].
    intros i d Hi. unfold convert_timestamp. by rewrite Hi. }
  assert (for_each (convert_datetime epoch_dt) datetime_indexes c0 = Ok c0) as Hdt.
  { apply for_each_skip; [|apply Hlist; by_decide].
    intros i d Hi. unfold convert_datetime. by rewrite Hi. }
  assert (for_each convert_uuid uuid_indexes c0 = Ok c0) as Huuid.
  { apply for_each_skip; [|apply Hlist; by_decide].
    intros i d Hi. unfold convert_uuid. by rewrite Hi. }
  unfold update. rewrite insert_empty. fold c0.
  rewrite Hdel, Hping. cbn [mbind result_bind].
  rewrite Hraw, Hcustom, Hagain, Hbool. cbn [mbind result_bind].
  rewrite Hfloat, Hepoch. cbn [mbind result_bind].
  rewrite Hts. cbn [mbind result_bind]. rewrite Hdt. cbn [mbind result_bind].
  rewrite Huuid. cbn [mbind result_bind].
  unfold update_container_name. rewrite lookup_insert_ne by done.
  unfold c0. by rewrite lookup_singleton_eq.
Qed.

(** ** [store] *)

Lemma local_copy_lookup (c j : content) (k : string) :
  local_copy c = Ok j →
  match c !! k with
  | Some v => ∃ v', store_value k v = Ok v' ∧ j !! k = Some v'
  | None => j !! k = None
  end.
Proof.
  unfold local_copy. revert j.
  apply (map_fold_weak_ind (λ (r : result content) (m : content), ∀ j, r = Ok j →
           match m !! k with
           | Some v => ∃ v', store_value k v = Ok v' ∧ j !! k = Some v'
           | None => j !! k = None
           end)).
  - intros j H. apply Ok_inj in H as <-. by rewrite !lookup_empty.
  - intros i x m r Hi IH j H.
    apply bind_Ok in H as (j0 & -> & H). apply bind_Ok in H as (v' & Hv' & H).
    apply Ok_inj in H as <-. specialize (IH j0 eq_refl).
    destruct (decide (i = k)) as [->|Hne].
    + rewrite !lookup_insert_eq. eauto.
    + by rewrite !lookup_insert_ne.
Qed.

Lemma store_Ok (c j : content) : store c = Ok j → local_copy c = Ok j.
Proof.
  unfold store. intros H. apply bind_Ok in H as (j' & -> & H).
  case_decide; [|done]. by apply Ok_inj in H as <-.
Qed.

(** What a timestamp field holds after [store] and a fresh [update] of
    the stored object: [utcfromtimestamp] of the [timestamp()] of the
    instant that was in memory. *)
Lemma persist_load_timestamp (c j c' : content) (index : string) (t : datetime) :
  index ∈ timestamp_indexes → c !! index = Some (VDatetime t) →
  store c = Ok j → update j = Ok c' →
  ∃ f epoch_dt,
    (timestamp t = Ok f ∨ timestamp t = Raise OSError ∧ f = float_zero) ∧
    j !! index = Some (VFloat f) ∧
    utcfromtimestamp (VInt 0) = Ok epoch_dt ∧
    ((∃ t', utcfromtimestamp (VFloat f) = Ok t' ∧ c' !! index = Some (VDatetime t'))
     ∨ (utcfromtimestamp (VFloat f) = Raise OSError
        ∧ c' !! index = Some (VDatetime epoch_dt))).
Proof.
  intros Hin Hc Hstore Hupdate.
  pose proof (local_copy_lookup _ _ index (store_Ok _ _ Hstore)) as Hj.
  rewrite Hc in Hj. destruct Hj as (v' & Hv' & Hj).
  assert (endswith index "_timestamp" = true) as Hend.
  { clear -Hin. repeat (apply elem_of_cons in Hin as [->|Hin]); [reflexivity..|].
    by apply elem_of_nil in Hin. }
  unfold store_value in Hv'. rewrite Hend in Hv'.
  assert (∃ f, (timestamp t = Ok f ∨ timestamp t = Raise OSError ∧ f = float_zero)
               ∧ v' = VFloat f) as (f & Hf & ->).
  { destruct (timestamp t) as [f|[]]; try discriminate;
      apply Ok_inj in Hv' as <-; eauto. }
  destruct (update_timestamp_field _ _ _ _ Hupdate Hin Hj)
    as (w & epoch_dt & Hw & Hepoch & Hcases).
  unfold timestamp_operand in Hw. cbn [isinstance_float negb] in Hw.
  rewrite andb_false_r in Hw. apply Ok_inj in Hw as <-.
  exists f, epoch_dt. split_and!; [done..|].
  destruct Hcases as [(t' & [=] & _)|[(_ & t' & ? & ?)|(_ & ? & ?)]]; eauto.
Qed.

(** * Further properties of [update] *)

Lemma raised_None {A} (r : result A) : raised r = None → ∃ a, r = Ok a.
Proof. destruct r; [eauto|done]. Qed.

(** ** The first steps *)

(** X1: a [list_name] that is not a string makes [update] raise
    [TypeError], from [os.path.join], whatever the other fields hold. *)
Theorem update_list_name_not_str (c : content) (v : value) :
  c !! "list_name" = Some v → isinstance_str v = false →
  update c = Raise TypeError.
Proof.
  intros Hv Hs. unfold update, to_delete. rewrite lookup_insert_ne by done.
  rewrite Hv. by destruct v.
Qed.

Lemma to_delete_Ok (c : content) :
  (∀ v, c !! "list_name" = Some v → isinstance_str v = true) →
  ∃ files, to_delete c = Ok files.
Proof.
  intros H. unfold to_delete. destruct (c !! "list_name") as [v|] eqn:E; [|eauto].
  specialize (H v eq_refl). destruct v; try discriminate. eauto.
Qed.

Lemma mapM_Raise {A B} (f : A → result B) (l1 l2 : list A) (x : A) (e : exn) :
  (∀ y, y ∈ l1 → ∃ b, f y = Ok b) → f x = Raise e →
  mapM f (l1 ++ x :: l2) = Raise e.
Proof.
  intros Hl1 Hx. induction l1 as [|y l1 IH]; cbn [app mapM].
  - by rewrite Hx.
  - destruct (Hl1 y ltac:(by left)) as (b & ->). cbn [mbind result_bind].
    rewrite IH; [done|]. intros z Hz. apply Hl1. by right.
Qed.

(** X2: when [ping] is not iterable, [update] raises [TypeError]; when it
    is a list whose first entry that is not a string follows only strings,
    [update] raises [AttributeError] (the entry has no [startswith]). *)
Theorem update_ping_malformed (c : content) (v : value) :
  (∀ x, c !! "list_name" = Some x → isinstance_str x = true) →
  c !! "ping" = Some v →
  (iterate v = Raise TypeError → update c = Raise TypeError) ∧
  (∀ (l1 : list string) (x : value) (l2 : list value),
     v = VList ((VStr <$> l1) ++ x :: l2) → isinstance_str x = false →
     update c = Raise AttributeError).
Proof.
  intros Hln Hv.
  assert (∃ files, to_delete (<["name" := VStr GIT_BASE_NAME]> c) = Ok files)
    as (files & Hfiles).
  { apply to_delete_Ok. intros x. rewrite lookup_insert_ne by done. apply Hln. }
  assert (update_ping (<["name" := VStr GIT_BASE_NAME]> c)
          = (usernames ← iterate v; r ← mapM ping_entry usernames;
             Ok (<["ping" := VList r]> (<["name" := VStr GIT_BASE_NAME]> c)))) as Hp.
  { unfold update_ping. rewrite lookup_insert_ne by done. by rewrite Hv. }
  split.
  - intros Hit. unfold update. rewrite Hfiles, Hp, Hit. done.
  - intros l1 x l2 -> Hx. unfold update. rewrite Hfiles, Hp. cbn [iterate mbind result_bind].
    rewrite (mapM_Raise ping_entry (VStr <$> l1) l2 x AttributeError); [done| |].
    + intros y Hy. apply list_elem_of_fmap in Hy as (s & -> & _). cbn. eauto.
    + by destruct x.
Qed.

(** ** [raw_link] and [custom_pyfunceble_config] *)

Lemma update_raw_link_cases (c c' : content) (v : value) :
  c !! "raw_link" = Some v → update c = Ok c' →
  c' !! "raw_link" = Some (if isinstance_str v && negb (truthy v) then VNone else v).
Proof.
  intros Hv H. update_inv H. subst c'.
  assert (c1 !! "raw_link" = Some v) as Hc1 by (frame; done).
  frame. unfold update_raw_link. rewrite Hc1.
  destruct (isinstance_str v && negb (truthy v)); [apply lookup_insert_eq|done].
Qed.

(** X3: [update] replaces an empty-string [raw_link] by [None] and leaves
    every other value of [raw_link] as it is. *)
Theorem update_raw_link_field (c c' : content) (v : value) :
  c !! "raw_link" = Some v → update c = Ok c' →
  (v = VStr "" → c' !! "raw_link" = Some VNone) ∧
  (v ≠ VStr "" → c' !! "raw_link" = Some v).
Proof.
  intros Hv H. rewrite (update_raw_link_cases _ _ _ Hv H). split.
  - by intros ->.
  - intros Hne. destruct v as [| | | |[|a s]| | | |]; done.
Qed.

Lemma update_custom_config_lookup (c : content) (v : value) :
  c !! "custom_pyfunceble_config" = Some v →
  update_custom_config c !! "custom_pyfunceble_config" = Some (normal_config v).
Proof.
  intros Hv. unfold update_custom_config. rewrite Hv.
  destruct (truthy v) eqn:Ht.
  - destruct v as [| | | | | |[|kv d]| |]; try discriminate; apply lookup_insert_eq.
  - rewrite lookup_insert_eq. by destruct v as [| | | | | |[|kv d]| |].
Qed.

Lemma update_custom_config_again_dict (c : content) (d : list (string * value)) :
  c !! "custom_pyfunceble_config" = Some (VDict d) →
  update_custom_config_again c = c.
Proof.
  intros Hv. unfold update_custom_config_again. rewrite Hv.
  cbn [isinstance_dict negb]. by rewrite andb_false_r.
Qed.

Lemma update_custom_config_cases (c c' : content) (v : value) :
  c !! "custom_pyfunceble_config" = Some v → update c = Ok c' →
  c' !! "custom_pyfunceble_config" = Some (normal_config v).
Proof.
  intros Hv H. update_inv H. subst c'.
  assert (update_raw_link c1 !! "custom_pyfunceble_config" = Some v) as Hc1
    by (frame; done).
  pose proof (update_custom_config_lookup _ _ Hc1) as Hc2.
  assert (∃ d, normal_config v = VDict d) as (d & Hd)
    by (destruct v as [| | | | | |[|]| |]; cbn; eauto).
  rewrite Hd in Hc2. rewrite (update_custom_config_again_dict _ _ Hc2) in Hbool.
  frame. by rewrite Hd.
Qed.

(** X4: after [update], a [custom_pyfunceble_config] that was present is
    always a dictionary: the flattened one when the field held a non-empty
    dictionary, the empty one for every other value. *)
Theorem update_custom_config_field (c c' : content) (v : value) :
  c !! "custom_pyfunceble_config" = Some v → update c = Ok c' →
  (∀ kv d, v = VDict (kv :: d) →
     c' !! "custom_pyfunceble_config" = Some (VDict (flatten (kv :: d)))) ∧
  ((∀ kv d, v ≠ VDict (kv :: d)) →
     c' !! "custom_pyfunceble_config" = Some (VDict [])).
Proof.
  intros Hv H. rewrite (update_custom_config_cases _ _ _ Hv H). split.
  - by intros kv d ->.
  - intros Hne. destruct v as [| | | | | |[|kv d]| |]; try done. by destruct (Hne kv d).
Qed.

(** ** The coercion loops *)

Lemma update_bool_iteration (c c' : content) (index : string) :
  update c = Ok c' → index ∈ ["currently_under_test"; "ping_enabled"] →
  ∃ d0 d1, d0 !! index = c !! index ∧ coerce_bool index d0 = Ok d1
           ∧ c' !! index = d1 !! index.
Proof.
  intros H Hin. update_inv H. subst c'.
  assert (NoDup ["currently_under_test"; "ping_enabled"]) as Hnd by by_NoDup.
  destruct (for_each_at _ _ _ _ index writes_coerce_bool Hnd Hin Hbool)
    as (d0 & d1 & H0 & Hbody & H1).
  exists d0, d1. split_and!; [|done|].
  - rewrite H0. clear Hbool H0 Hbody H1 Hnd.
    repeat (apply elem_of_cons in Hin as [->|Hin]); [by frame..|].
    by apply elem_of_nil in Hin.
  - rewrite <- H1. clear H0 Hbody H1 Hnd.
    repeat (apply elem_of_cons in Hin as [->|Hin]); [by frame..|].
    by apply elem_of_nil in Hin.
Qed.

Lemma update_bool_cases (c c' : content) (index : string) (v : value) :
  index ∈ ["currently_under_test"; "ping_enabled"] → c !! index = Some v →
  update c = Ok c' →
  if isinstance_bool v then c' !! index = Some v
  else ∃ z, py_int v = Ok z ∧ c' !! index = Some (VBool (negb (z =? 0)%Z)).
Proof.
  intros Hin Hv H.
  destruct (update_bool_iteration _ _ _ H Hin) as (d0 & d1 & H0 & Hbody & ->).
  rewrite Hv in H0. unfold coerce_bool in Hbody. rewrite H0 in Hbody.
  destruct (isinstance_bool v) eqn:Hb; cbn [negb] in Hbody.
  - by apply Ok_inj in Hbody as <-.
  - apply bind_Ok in Hbody as (z & Hz & Hbody). apply Ok_inj in Hbody as <-.
    exists z. split; [done|]. apply lookup_insert_eq.
Qed.

(** X5: after [update], [currently_under_test] and [ping_enabled], when
    present, are booleans: a boolean is kept, any other value [v] becomes
    [bool(int(v))]; so [update] does not return when [int(v)] raises. *)
Theorem update_bool_field (c c' : content) (index : string) (v : value) :
  index ∈ ["currently_under_test"; "ping_enabled"] → c !! index = Some v →
  update c = Ok c' →
  ∃ b, c' !! index = Some (VBool b) ∧
       (v = VBool b ∨ (isinstance_bool v = false ∧
                       ∃ z, py_int v = Ok z ∧ b = negb (z =? 0)%Z)).
Proof.
  intros Hin Hv H. pose proof (update_bool_cases _ _ _ _ Hin Hv H) as Hc.
  destruct (isinstance_bool v) eqn:Hb.
  - destruct v as [|b| | | | | | |]; try discriminate. exists b. split; [done|by left].
  - destruct Hc as (z & Hz & Hc). exists (negb (z =? 0)%Z). split; [done|].
    right. split; [done|]. by exists z.
Qed.

(** X6: [update] does not return when a field of the float loop holds a
    value that is not a float and that [float()] rejects, nor when an
    identifier field holds a non-empty string that is not a UUID. *)
Theorem update_rejects (c : content) (index : string) (v : value) :
  c !! index = Some v →
  (index ∈ float_indexes ∧ isinstance_float v = false ∧ (∃ e, py_float v = Raise e))
  ∨ (index ∈ uuid_indexes ∧ truthy v = true ∧ isinstance_UUID v = false
     ∧ (∃ e, py_UUID v = Raise e)) →
  ∃ e, update c = Raise e.
Proof.
  intros Hv Hcases. destruct (update c) as [c'|e] eqn:H; [exfalso|eauto].
  destruct Hcases as [(Hin & Hf & e & He)|(Hin & Ht & Hu & e & He)].
  - update_inv H.
    assert (c2 !! index = Some v) as Hc2.
    { rewrite <- Hv. clear -Hin Hping Hbool.
      repeat (apply elem_of_cons in Hin as [->|Hin]); [by frame..|].
      by apply elem_of_nil in Hin. }
    destruct (coerce_float_loop _ _ _ _ Hfloat Hc2) as (w & Hw & _).
    unfold timestamp_operand in Hw. rewrite bool_decide_eq_true_2, Hf, He in Hw by done.
    discriminate.
  - pose proof (update_uuid_cases _ _ _ _ Hin Hv H) as Hc.
    rewrite Ht, Hu in Hc. destruct Hc as (u & Hu' & _). congruence.
Qed.

Lemma update_datetime_iteration (c c' : content) (index : string) :
  update c = Ok c' → index ∈ datetime_indexes →
  ∃ d0 d1 epoch_dt,
    utcfromtimestamp (VInt 0) = Ok epoch_dt ∧
    d0 !! index = c !! index ∧ convert_datetime epoch_dt index d0 = Ok d1
    ∧ c' !! index = d1 !! index.
Proof.
  intros H Hin. update_inv H. subst c'.
  assert (NoDup datetime_indexes) as Hnd by by_NoDup.
  destruct (for_each_at _ _ _ _ index (writes_convert_datetime epoch_dt) Hnd Hin Hdt)
    as (d0 & d1 & H0 & Hbody & H1).
  exists d0, d1, epoch_dt. split_and!; [done| |done|].
  - rewrite H0. clear Hdt H0 Hbody H1 Hnd.
    repeat (apply elem_of_cons in Hin as [->|Hin]); [by frame..|].
    by apply elem_of_nil in Hin.
  - rewrite <- H1. clear H0 Hbody H1 Hnd.
    repeat (apply elem_of_cons in Hin as [->|Hin]); [by frame..|].
    by apply elem_of_nil in Hin.
Qed.

Lemma update_datetime_cases (c c' : content) (index : string) (v : value) :
  index ∈ datetime_indexes → c !! index = Some v → update c = Ok c' →
  ∃ epoch_dt,
    utcfromtimestamp (VInt 0) = Ok epoch_dt ∧
    c' !! index = Some (VDatetime (normal_datetime epoch_dt v)) ∧
    (truthy v = false ∨ isinstance_datetime v = true ∨ isinstance_str v = true).
Proof.
  intros Hin Hv H.
  destruct (update_datetime_iteration _ _ _ H Hin)
    as (d0 & d1 & epoch_dt & Hepoch & H0 & Hbody & ->).
  exists epoch_dt. split; [done|].
  rewrite Hv in H0. unfold convert_datetime in Hbody. rewrite H0 in Hbody.
  destruct v as [|[]|z|f|s|l|d|t|u]; cbn [truthy isinstance_datetime negb andb] in Hbody;
    cbn [truthy isinstance_datetime isinstance_str normal_datetime];
    try (apply Ok_inj in Hbody as <-; rewrite lookup_insert_eq; by eauto);
    try discriminate.
  - destruct (z =? 0)%Z; cbn in Hbody; [|discriminate].
    apply Ok_inj in Hbody as <-. rewrite lookup_insert_eq. eauto.
  - destruct (float_is_zero f); cbn in Hbody; [|discriminate].
    apply Ok_inj in Hbody as <-. rewrite lookup_insert_eq. eauto.
  - destruct (String.eqb s ""); cbn [negb andb fromisoformat] in Hbody.
    + apply Ok_inj in Hbody as <-. rewrite lookup_insert_eq. eauto.
    + destruct (fromisoformat_str s); apply Ok_inj in Hbody as <-;
        rewrite lookup_insert_eq; eauto.
  - destruct l; cbn in Hbody; [|discriminate].
    apply Ok_inj in Hbody as <-. rewrite lookup_insert_eq. eauto.
  - destruct d; cbn in Hbody; [|discriminate].
    apply Ok_inj in Hbody as <-. rewrite lookup_insert_eq. eauto.
Qed.

(** X7: after [update], each of the five datetime fields that was present
    holds an instant: the parsed one for a non-empty string that
    [fromisoformat] accepts, the epoch for a string it rejects, for a
    falsy value and for a value that already is a [datetime]; a truthy
    value of any other type does not let [update] return. *)
Theorem update_datetime_field (c c' : content) (index : string) (v : value) :
  index ∈ datetime_indexes → c !! index = Some v → update c = Ok c' →
  ∃ epoch_dt,
    utcfromtimestamp (VInt 0) = Ok epoch_dt ∧
    (∀ s t, v = VStr s → s ≠ "" → fromisoformat_str s = Some t →
       c' !! index = Some (VDatetime t)) ∧
    (∀ s, v = VStr s → fromisoformat_str s = None →
       c' !! index = Some (VDatetime epoch_dt)) ∧
    (truthy v = false → c' !! index = Some (VDatetime epoch_dt)) ∧
    (isinstance_datetime v = true → c' !! index = Some (VDatetime epoch_dt)) ∧
    (truthy v = false ∨ isinstance_datetime v = true ∨ isinstance_str v = true).
Proof.
  intros Hin Hv H.
  destruct (update_datetime_cases _ _ _ _ Hin Hv H) as (epoch_dt & Hepoch & Hc' & Hty).
  exists epoch_dt. rewrite Hc'. split_and!; [done| | | | |done].
  - intros s t -> Hs Ht. cbn. apply String.eqb_neq in Hs. by rewrite Hs, Ht.
  - intros s -> Ht. cbn. rewrite Ht. by destruct (String.eqb s "").
  - intros Ht. destruct v as [| | | |s| | | |]; try done.
    cbn in Ht. apply negb_false_iff in Ht. cbn. by rewrite Ht.
  - intros Ht. by destruct v.
Qed.

(** ** Which fields [update] has *)

Lemma for_each_present body (l : list string) (c c' : content) (k : string) :
  (∀ i d d', body i d = Ok d' → is_Some (d !! k) → is_Some (d' !! k)) →
  for_each body l c = Ok c' → is_Some (c !! k) → is_Some (c' !! k).
Proof.
  intros Hbody. revert c. induction l as [|i l IH]; intros c H Hk; cbn in H.
  - by apply Ok_inj in H as <-.
  - apply bind_Ok in H as (d & Hd & H). eauto.
Qed.

Lemma insert_present (c : content) (i k : string) (v : value) :
  is_Some (c !! k) → is_Some (<[i := v]> c !! k).
Proof. intros H. apply lookup_insert_is_Some'. by right. Qed.

Lemma update_present (c c' : content) (k : string) :
  update c = Ok c' → is_Some (c !! k) → is_Some (c' !! k).
Proof.
  intros H Hk. update_inv H. subst c'. do 2 apply insert_present.
  eapply for_each_present; [|exact Huuid|].
  { intros i d d' Hb Hd. unfold convert_uuid in Hb. destruct (d !! i); [|by apply Ok_inj in Hb as <-].
    destruct (_ && _); [apply bind_Ok in Hb as (? & _ & Hb)|];
      apply Ok_inj in Hb as <-; by apply insert_present. }
  eapply for_each_present; [|exact Hdt|].
  { intros i d d' Hb Hd. unfold convert_datetime in Hb.
    destruct (d !! i) as [x|]; [|by apply Ok_inj in Hb as <-].
    destruct (_ && _); [destruct (fromisoformat x) as [?|[]]; try discriminate|];
      apply Ok_inj in Hb as <-; by apply insert_present. }
  eapply for_each_present; [|exact Hts|].
  { intros i d d' Hb Hd. unfold convert_timestamp in Hb.
    destruct (d !! i) as [x|]; [|by apply Ok_inj in Hb as <-].
    destruct (negb _); [destruct (utcfromtimestamp x) as [?|[]]; try discriminate|];
      apply Ok_inj in Hb as <-; by try apply insert_present. }
  eapply for_each_present; [|exact Hfloat|].
  { intros i d d' Hb Hd. unfold coerce_float in Hb.
    destruct (d !! i) as [x|]; [|by apply Ok_inj in Hb as <-].
    destruct (negb _); [apply bind_Ok in Hb as (? & _ & Hb)|];
      apply Ok_inj in Hb as <-; by try apply insert_present. }
  eapply for_each_present; [|exact Hbool|].
  { intros i d d' Hb Hd. unfold coerce_bool in Hb.
    destruct (d !! i) as [x|]; [|by apply Ok_inj in Hb as <-].
    destruct (negb _); [apply bind_Ok in Hb as (? & _ & Hb)|];
      apply Ok_inj in Hb as <-; by try apply insert_present. }
  assert (is_Some (c1 !! k)) as Hc1.
  { unfold update_ping in Hping. destruct (_ !! "ping").
    - apply bind_Ok in Hping as (? & _ & Hping). apply bind_Ok in Hping as (? & _ & Hping).
      apply Ok_inj in Hping as <-. by do 2 apply insert_present.
    - apply Ok_inj in Hping as <-. by apply insert_present. }
  assert (is_Some (update_raw_link c1 !! k)) as Hc2.
  { unfold update_raw_link. destruct (c1 !! "raw_link"); [|done].
    destruct (_ && _); [by apply insert_present|done]. }
  assert (is_Some (update_custom_config (update_raw_link c1) !! k)) as Hc3.
  { unfold update_custom_config. destruct (_ !! "custom_pyfunceble_config") as [x|]; [|done].
    destruct (truthy x); [destruct x|]; by apply insert_present. }
  unfold update_custom_config_again.
  destruct (_ !! "custom_pyfunceble_config") as [x|]; [|done].
  destruct (_ && _); [by apply insert_present|done].
Qed.

Lemma update_dom_eq (c c' : content) :
  update c = Ok c' → dom c' = list_to_set derived_indexes ∪ dom c.
Proof.
  intros H. apply set_eq. intros k.
  rewrite elem_of_union, !elem_of_dom, elem_of_list_to_set. split.
  - intros Hk. destruct (decide (k ∈ derived_indexes)) as [|Hn]; [by left|right].
    destruct (c !! k) eqn:E; [done|].
    rewrite (update_absent _ _ _ H E Hn) in Hk. by destruct Hk.
  - intros [Hk|Hk]; [|by eapply update_present].
    update_inv H. subst c'.
    repeat (apply elem_of_cons in Hk as [->|Hk]);
      [|by rewrite lookup_insert_ne, lookup_insert_eq|by rewrite lookup_insert_eq|
       by apply elem_of_nil in Hk].
    rewrite !lookup_insert_ne by done. by rewrite Hname.
Qed.

(** X8: [update] neither adds nor removes a field, apart from [name],
    [repo] and [platform_container_name], which it always sets: the
    fields of its result are those of the record and these three. *)
Theorem update_dom (c c' : content) :
  update c = Ok c' →
  dom c' = list_to_set derived_indexes ∪ dom c ∧
  ∀ k, k ∈ derived_indexes → is_Some (c' !! k).
Proof.
  intros H. pose proof (update_dom_eq _ _ H) as Hd. split; [done|].
  intros k Hk. apply elem_of_dom. rewrite Hd, elem_of_union, elem_of_list_to_set. by left.
Qed.

Lemma update_keeps_unmanaged (c c' : content) (k : string) :
  k ∉ managed_indexes → update c = Ok c' → c' !! k = c !! k.
Proof.
  intros Hk H. unfold managed_indexes in Hk.
  rewrite !not_elem_of_app, !not_elem_of_cons in Hk.
  destruct Hk as ((? & ? & ? & ? & ? & ? & _) & ? & ? & ? & ? & ? & ? & _).
  update_inv H. subst c'. rewrite !lookup_insert_ne by done.
  rewrite (update_name_kept _ _ _ _ _ _ _ Hbool Hfloat Hts Hdt Huuid).
  - rewrite (writes_update_ping _ _ Hping k) by (by rewrite list_elem_of_singleton).
    by rewrite lookup_insert_ne.
  - rewrite !not_elem_of_app, !not_elem_of_cons. split_and!; try done. apply not_elem_of_nil.
Qed.

(** X9: [update] leaves as it is every field that is not named in one of
    its lists or assignments, so fields it does not know are preserved. *)
Theorem update_unmanaged (c c' : content) :
  update c = Ok c' →
  filter (λ kv, kv.1 ∉ managed_indexes) c' = filter (λ kv, kv.1 ∉ managed_indexes) c.
Proof.
  intros H. apply map_eq. intros k.
  destruct (decide (k ∉ managed_indexes)) as [Hk|Hk].
  - pose proof (update_keeps_unmanaged _ _ k Hk H) as Hkk.
    destruct (c !! k) as [v|] eqn:E.
    + rewrite (map_lookup_filter_Some_2 _ c k v) by done.
      by apply map_lookup_filter_Some_2.
    + rewrite !map_lookup_filter_None_2; [done|by left..].
  - rewrite !map_lookup_filter_None_2; [done|right; by intros ?..].
Qed.

(** ** The container name *)

Lemma string_forall_append (p : ascii → bool) (s1 s2 : string) :
  string_forall p (s1 +:+ s2) = string_forall p s1 && string_forall p s2.
Proof.
  induction s1 as [|a s1 IH]; [done|].
  change (String a s1 +:+ s2) with (String a (s1 +:+ s2)).
  cbn [string_forall]. by rewrite IH, andb_assoc.
Qed.

Lemma string_forall_substring (p : ascii → bool) (n : nat) (s : string) :
  string_forall p s = true → string_forall p (substring 0 n s) = true.
Proof.
  revert n. induction s as [|a s IH]; intros [|n] H; cbn; try done.
  cbn in H. apply andb_prop in H as [-> H]. cbn. by apply IH.
Qed.

Lemma length_substring_0 (n : nat) (s : string) :
  (String.length (substring 0 n s) ≤ n)%nat.
Proof.
  revert n. induction s as [|a s IH]; intros [|n]; cbn; try lia.
  specialize (IH n). lia.
Qed.

Lemma derived_char_ok (a : ascii) :
  string_forall container_char_ok (derived_char a) = true.
Proof. destruct a as [[] [] [] [] [] [] [] []]; reflexivity. Qed.

Lemma expand_derived_ok (name : string) :
  string_forall container_char_ok (expand derived_char name) = true.
Proof.
  induction name as [|a s IH]; [done|].
  cbn [expand]. by rewrite string_forall_append, derived_char_ok, IH.
Qed.

(** X10: the [platform_container_name] that [update] stores has at most
    128 characters and holds no space, dot, bracket or parenthesis and no
    upper-case ASCII letter. *)
Theorem update_container_name_shape (c c' : content) :
  update c = Ok c' →
  ∃ s, c' !! "platform_container_name" = Some (VStr s) ∧
       (String.length s ≤ 128)%nat ∧
       string_forall container_char_ok s = true.
Proof.
  intros H. update_inv H. subst c'. exists (container_name GIT_BASE_NAME).
  rewrite lookup_insert_eq. split_and!; [done|apply length_substring_0|].
  rewrite container_name_derived. apply string_forall_substring, expand_derived_ok.
Qed.

(** ** [ping], whatever it holds *)

Lemma update_ping_field (c c' : content) (v : value) :
  update c = Ok c' → c !! "ping" = Some v →
  ∃ items r, iterate v = Ok items ∧ mapM ping_entry items = Ok r
             ∧ c' !! "ping" = Some (VList r).
Proof.
  intros H Hv. update_inv H. subst c'.
  unfold update_ping in Hping. rewrite lookup_insert_ne in Hping by done.
  rewrite Hv in Hping. apply bind_Ok in Hping as (items & Hit & Hping).
  apply bind_Ok in Hping as (r & Hr & Hping). apply Ok_inj in Hping.
  exists items, r. split_and!; [done..|].
  assert (c1 !! "ping" = Some (VList r)) as Hc1 by (subst c1; apply lookup_insert_eq).
  clear Hping. frame. done.
Qed.

Lemma mapM_ping_entry_inv (items r : list value) :
  mapM ping_entry items = Ok r →
  ∃ l, items = VStr <$> l ∧ r = VStr <$> (mention <$> l).
Proof.
  revert r. induction items as [|x items IH]; intros r H; cbn [mapM] in H.
  - apply Ok_inj in H as <-. by exists [].
  - apply bind_Ok in H as (y & Hy & H). apply bind_Ok in H as (r' & Hr' & H).
    apply Ok_inj in H as <-. destruct (IH r' Hr') as (l & -> & ->).
    destruct x as [| | | |s| | | |]; try discriminate. apply Ok_inj in Hy as <-.
    by exists (s :: l).
Qed.

Lemma mention_fixed (l : list string) :
  Forall (λ s, startswith_at s = true) l → mention <$> l = l.
Proof.
  induction 1 as [|s l Hs _ IH]; [done|]. cbn [fmap list_fmap].
  unfold mention at 1. rewrite Hs. by f_equal.
Qed.

(** X11: whatever iterable [ping] held (a list, a string, whose
    characters are then taken one by one, or a dictionary, whose keys are
    taken), after [update] it is a list of strings that all start with
    ['@']. *)
Theorem update_ping_invariant (c c' : content) (v : value) :
  c !! "ping" = Some v → update c = Ok c' →
  ∃ v', c' !! "ping" = Some v' ∧ mentions v'.
Proof.
  intros Hv H. destruct (update_ping_field _ _ _ H Hv) as (items & r & _ & Hr & Hc').
  destruct (mapM_ping_entry_inv _ _ Hr) as (l & _ & ->).
  exists (VList (VStr <$> (mention <$> l))). split; [done|].
  exists (mention <$> l). split; [done|].
  apply Forall_fmap, Forall_forall. intros s _. apply startswith_at_mention.
Qed.

(** X12: a [ping] given as one string is taken apart: after [update] the
    field lists the characters of the string, each prefixed with ['@']
    unless it is ['@'] itself. *)
Theorem update_ping_of_string (c c' : content) (s : string) :
  c !! "ping" = Some (VStr s) → update c = Ok c' →
  c' !! "ping" = Some (VList (VStr <$> (mention <$> chars s))).
Proof.
  intros Hv H. destruct (update_ping_field _ _ _ H Hv) as (items & r & Hit & Hr & ->).
  cbn [iterate] in Hit. apply Ok_inj in Hit as <-.
  rewrite mapM_ping_entry in Hr. by apply Ok_inj in Hr as <-.
Qed.

(** X13: [update] is idempotent on [ping]: a second run leaves the field
    as the first run left it. *)
Theorem update_ping_stable (c c1 c2 : content) :
  update c = Ok c1 → update c1 = Ok c2 → c2 !! "ping" = c1 !! "ping".
Proof.
  intros H1 H2. destruct (c !! "ping") as [v|] eqn:Hv.
  - destruct (update_ping_field _ _ _ H1 Hv) as (items & r & _ & Hr & Hc1).
    destruct (mapM_ping_entry_inv _ _ Hr) as (l & _ & ->).
    destruct (update_ping_field _ _ _ H2 Hc1) as (items' & r' & Hit' & Hr' & Hc2).
    cbn [iterate] in Hit'. apply Ok_inj in Hit' as <-.
    rewrite mapM_ping_entry in Hr'. apply Ok_inj in Hr' as <-.
    rewrite Hc1, Hc2. do 3 f_equal. apply mention_fixed.
    apply Forall_fmap, Forall_forall. intros s _. apply startswith_at_mention.
  - assert (c1 !! "ping" = None) as Hc1 by (apply (update_absent _ _ _ H1 Hv); by_decide).
    rewrite Hc1. apply (update_absent _ _ _ H2 Hc1). by_decide.
Qed.

(** * Properties of [create_missing_index] and [clean] *)

Lemma first_value_is_Some (k : string) (l : list (string * value)) :
  is_Some (first_value k l) ↔ k ∈ l.*1.
Proof.
  induction l as [|[k' v] l IH]; cbn [first_value fmap list_fmap fst].
  - split; [by intros []|by intros ?%elem_of_nil].
  - destruct (String.eqb_spec k' k) as [->|Hne].
    + split; [intros _; by left|done].
    + rewrite IH, elem_of_cons. split; [by right|]. by intros [->|].
Qed.

Lemma create_missing_index_Ok (c c' : content) :
  create_missing_index c = Ok c' →
  ∃ default_datetime default_timestamp,
    minus_days utcnow 15 = Ok default_datetime ∧
    timestamp default_datetime = Ok default_timestamp ∧
    ∀ k, c' !! k = match c !! k with
                   | Some v => Some v
                   | None => first_value k (indexes default_datetime default_timestamp)
                   end.
Proof.
  unfold create_missing_index. intros H.
  apply bind_Ok in H as (d & Hd & H). apply bind_Ok in H as (e & _ & H).
  apply bind_Ok in H as (ts & Hts & H). apply Ok_inj in H. subst c'.
  exists d, ts. split_and!; [done..|]. intros k. apply foldl_create_index.
Qed.

Lemma create_missing_index_dom (c c' : content) :
  create_missing_index c = Ok c' → dom c' = list_to_set default_indexes ∪ dom c.
Proof.
  intros H. destruct (create_missing_index_Ok _ _ H) as (d & ts & _ & _ & Hc').
  apply set_eq. intros k.
  rewrite elem_of_union, !elem_of_dom, elem_of_list_to_set, Hc'.
  change default_indexes with (indexes d ts).*1. rewrite <- first_value_is_Some.
  destruct (c !! k) as [v|]; [|split; [by left|by intros [|[]]]].
  split; [by right|done].
Qed.

(** X14: [create_missing_index] never overwrites: every field of the
    record keeps its value; and it adds exactly the missing ones of its
    25 defaults, so that afterwards all of them are present. *)
Theorem create_missing_index_fills (c c' : content) :
  create_missing_index c = Ok c' →
  (∀ k v, c !! k = Some v → c' !! k = Some v) ∧
  dom c' = list_to_set default_indexes ∪ dom c ∧
  (∀ k, k ∈ default_indexes → is_Some (c' !! k)).
Proof.
  intros H. pose proof (create_missing_index_dom _ _ H) as Hd.
  split_and!; [|done|].
  - intros k v. by apply create_missing_index_present.
  - intros k Hk. apply elem_of_dom. rewrite Hd, elem_of_union, elem_of_list_to_set. by left.
Qed.

Lemma clean_lookup_cases (c : content) (k : string) :
  clean c !! k = if decide (k ∈ obsolete_indexes) then None else c !! k.
Proof.
  case_decide; [by apply clean_obsolete|by apply clean_lookup].
Qed.

Lemma clean_dom (c : content) :
  dom (clean c) = dom c ∖ list_to_set obsolete_indexes.
Proof.
  apply set_eq. intros k.
  rewrite elem_of_difference, !elem_of_dom, elem_of_list_to_set, clean_lookup_cases.
  case_decide; [split; [by intros []|by intros [_ []]]|].
  split; [done|by intros []].
Qed.

(** X15: [clean] removes the eight obsolete fields and nothing else, and
    cleaning twice is cleaning once. *)
Theorem clean_fields (c : content) :
  dom (clean c) = dom c ∖ list_to_set obsolete_indexes ∧
  (∀ k, k ∉ obsolete_indexes → clean c !! k = c !! k) ∧
  clean (clean c) = clean c.
Proof.
  split_and!; [apply clean_dom| |].
  - intros k Hk. by apply clean_lookup.
  - apply map_eq. intros k. rewrite !clean_lookup_cases. by case_decide.
Qed.

(** * Properties of the normalisation *)

Lemma normalize_lookup (c c' : content) (k : string) :
  normalize c = Ok c' → k ∉ obsolete_indexes →
  ∃ a default_datetime default_timestamp,
    update c = Ok a ∧
    c' !! k = match a !! k with
              | Some v => Some v
              | None => first_value k (indexes default_datetime default_timestamp)
              end.
Proof.
  intros H Hk. apply normalize_Ok in H as (a & b & Ha & Hb & ->).
  destruct (create_missing_index_Ok _ _ Hb) as (d & ts & _ & _ & Hb').
  exists a, d, ts. split; [done|]. by rewrite clean_lookup, Hb'.
Qed.

Lemma derived_are_defaults (k : string) : k ∈ derived_indexes → k ∈ default_indexes.
Proof.
  intros Hk. repeat (apply elem_of_cons in Hk as [->|Hk]); [by_decide..|].
  by apply elem_of_nil in Hk.
Qed.

Lemma defaults_not_obsolete (k : string) : k ∈ default_indexes → k ∉ obsolete_indexes.
Proof. revert k. apply Forall_forall. by_decide. Qed.

(** X16: after [update], [create_missing_index] and [clean], the record
    has every default field, none of the obsolete ones, and otherwise the
    fields it was loaded with. *)
Theorem normalize_dom (c c' : content) :
  normalize c = Ok c' →
  dom c' = (list_to_set default_indexes ∪ dom c) ∖ list_to_set obsolete_indexes ∧
  (∀ k, k ∈ default_indexes → is_Some (c' !! k)) ∧
  (∀ k, k ∈ obsolete_indexes → c' !! k = None).
Proof.
  intros H. apply normalize_Ok in H as (a & b & Ha & Hb & ->).
  assert (dom (clean b)
          = (list_to_set default_indexes ∪ dom c) ∖ list_to_set obsolete_indexes) as Hdom.
  { rewrite clean_dom, (create_missing_index_dom _ _ Hb), (update_dom_eq _ _ Ha).
    apply set_eq. intros k.
    rewrite !elem_of_difference, !elem_of_union, !elem_of_list_to_set.
    pose proof (derived_are_defaults k). tauto. }
  split_and!; [done| |by apply clean_obsolete].
  intros k Hk. apply elem_of_dom. rewrite Hdom.
  rewrite elem_of_difference, elem_of_union, !elem_of_list_to_set.
  split; [by left|by apply defaults_not_obsolete].
Qed.

(** The field [k] of a normalised record: what [update] left in it, or
    its default. *)
Lemma normalize_field (c c' : content) (k : string) (P : value → Prop) :
  normalize c = Ok c' → k ∈ default_indexes →
  (∀ a v, update c = Ok a → c !! k = Some v → ∃ w, a !! k = Some w ∧ P w) →
  (k ∈ derived_indexes → ∀ a w, update c = Ok a → a !! k = Some w → P w) →
  (∀ d ts w, first_value k (indexes d ts) = Some w → P w) →
  ∃ w, c' !! k = Some w ∧ P w.
Proof.
  intros H Hk Hpresent Hderived Hdefault.
  destruct (normalize_lookup _ _ k H (defaults_not_obsolete _ Hk)) as (a & d & ts & Ha & ->).
  destruct (a !! k) as [w|] eqn:Haw.
  - exists w. split; [done|]. destruct (decide (k ∈ derived_indexes)) as [Hd|Hd]; [by eauto|].
    destruct (c !! k) as [v|] eqn:Hv.
    + destruct (Hpresent a v Ha eq_refl) as (w' & Hw' & HP). congruence.
    + rewrite (update_absent _ _ _ Ha Hv Hd) in Haw. discriminate.
  - assert (is_Some (first_value k (indexes d ts))) as [w Hw].
    { apply first_value_is_Some. exact Hk. }
    exists w. split; [done|]. eauto.
Qed.

Lemma normalize_bool_field (c c' : content) (index : string) :
  normalize c = Ok c' → index ∈ ["currently_under_test"; "ping_enabled"] →
  ∃ b, c' !! index = Some (VBool b).
Proof.
  intros H Hin.
  destruct (normalize_field c c' index (λ w, isinstance_bool w = true) H) as (w & Hw & HP).
  - repeat (apply elem_of_cons in Hin as [->|Hin]); [by_decide..|by apply elem_of_nil in Hin].
  - intros a v Ha Hv. pose proof (update_bool_cases _ _ _ _ Hin Hv Ha) as Hc.
    destruct (isinstance_bool v) eqn:Hb; [by eauto|].
    destruct Hc as (z & _ & Hc). eauto.
  - intros Hd. exfalso. revert Hd.
    repeat (apply elem_of_cons in Hin as [->|Hin]); [by_decide..|by apply elem_of_nil in Hin].
  - intros d ts w Hw.
    repeat (apply elem_of_cons in Hin as [->|Hin]);
      [by apply (inj Some) in Hw as <-..|by apply elem_of_nil in Hin].
  - destruct w; try discriminate. eauto.
Qed.

Lemma normalize_ping_field (c c' : content) :
  normalize c = Ok c' → ∃ v, c' !! "ping" = Some v ∧ mentions v.
Proof.
  intros H. apply (normalize_field c c' "ping" mentions H).
  - by_decide.
  - intros a v Ha Hv.
    destruct (update_ping_field _ _ _ Ha Hv) as (items & r & _ & Hr & Hc').
    destruct (mapM_ping_entry_inv _ _ Hr) as (l & _ & ->).
    eexists. split; [done|]. exists (mention <$> l). split; [done|].
    apply Forall_fmap, Forall_forall. intros s _. apply startswith_at_mention.
  - intros Hd. exfalso. revert Hd. by_decide.
  - intros d ts w Hw. apply (inj Some) in Hw as <-. by exists [].
Qed.

(** X17: after the normalisation every typed field has its type:
    [currently_under_test] and [ping_enabled] are booleans, [ping] is a
    list of strings that start with ['@'], [custom_pyfunceble_config] is a
    dictionary, the datetime fields are instants, the timestamp fields are
    instants or floats, the identifiers are UUIDs or [None], and
    [raw_link] is not the empty string. *)
Theorem normalize_typed (c c' : content) :
  normalize c = Ok c' →
  (∀ index, index ∈ ["currently_under_test"; "ping_enabled"] →
     ∃ b, c' !! index = Some (VBool b)) ∧
  (∃ v, c' !! "ping" = Some v ∧ mentions v) ∧
  (∃ d, c' !! "custom_pyfunceble_config" = Some (VDict d)) ∧
  (∀ index, index ∈ datetime_indexes → ∃ t, c' !! index = Some (VDatetime t)) ∧
  (∀ index, index ∈ timestamp_indexes →
     ∃ w, c' !! index = Some w ∧ (isinstance_datetime w = true ∨ isinstance_float w = true)) ∧
  (∀ index, index ∈ uuid_indexes →
     ∃ w, c' !! index = Some w ∧ (w = VNone ∨ isinstance_UUID w = true)) ∧
  (∃ w, c' !! "raw_link" = Some w ∧ w ≠ VStr "").
Proof.
  intros H. split_and!.
  - intros index Hin. by apply (normalize_bool_field c).
  - by apply (normalize_ping_field c).
  - destruct (normalize_field c c' "custom_pyfunceble_config"
                (λ w, isinstance_dict w = true) H) as (w & Hw & HP).
    + by_decide.
    + intros a v Ha Hv. rewrite (update_custom_config_cases _ _ _ Hv Ha).
      eexists. split; [done|]. by destruct v as [| | | | | |[|]| |].
    + intros Hd. exfalso. revert Hd. by_decide.
    + intros d ts w Hw. by apply (inj Some) in Hw as <-.
    + destruct w; try discriminate. eauto.
  - intros index Hin.
    destruct (normalize_field c c' index (λ w, isinstance_datetime w = true) H)
      as (w & Hw & HP).
    + repeat (apply elem_of_cons in Hin as [->|Hin]); [by_decide..|by apply elem_of_nil in Hin].
    + intros a v Ha Hv.
      destruct (update_datetime_cases _ _ _ _ Hin Hv Ha) as (e & _ & Hc & _). eauto.
    + intros Hd. exfalso. revert Hd.
      repeat (apply elem_of_cons in Hin as [->|Hin]); [by_decide..|by apply elem_of_nil in Hin].
    + intros d ts w Hw.
      repeat (apply elem_of_cons in Hin as [->|Hin]);
        [by apply (inj Some) in Hw as <-..|by apply elem_of_nil in Hin].
    + destruct w; try discriminate. eauto.
  - intros index Hin.
    apply (normalize_field c c' index
             (λ w, isinstance_datetime w = true ∨ isinstance_float w = true) H).
    + repeat (apply elem_of_cons in Hin as [->|Hin]); [by_decide..|by apply elem_of_nil in Hin].
    + intros a v Ha Hv.
      destruct (update_timestamp_is_datetime _ _ _ Ha Hin ltac:(by rewrite Hv)) as (t & Ht).
      eexists. split; [done|]. by left.
    + intros Hd. exfalso. revert Hd.
      repeat (apply elem_of_cons in Hin as [->|Hin]); [by_decide..|by apply elem_of_nil in Hin].
    + intros d ts w Hw.
      repeat (apply elem_of_cons in Hin as [->|Hin]);
        [apply (inj Some) in Hw as <-; by right..|by apply elem_of_nil in Hin].
  - intros index Hin.
    apply (normalize_field c c' index (λ w, w = VNone ∨ isinstance_UUID w = true) H).
    + repeat (apply elem_of_cons in Hin as [->|Hin]); [by_decide..|by apply elem_of_nil in Hin].
    + intros a v Ha Hv. pose proof (update_uuid_cases _ _ _ _ Hin Hv Ha) as Hc.
      destruct (truthy v && negb (isinstance_UUID v)).
      * destruct Hc as (u & _ & Hc). eexists. split; [done|]. by right.
      * eexists. split; [done|]. by left.
    + intros Hd. exfalso. revert Hd.
      repeat (apply elem_of_cons in Hin as [->|Hin]); [by_decide..|by apply elem_of_nil in Hin].
    + intros d ts w Hw.
      repeat (apply elem_of_cons in Hin as [->|Hin]);
        [apply (inj Some) in Hw as <-; by left..|by apply elem_of_nil in Hin].
  - apply (normalize_field c c' "raw_link" (λ w, w ≠ VStr "") H).
    + by_decide.
    + intros a v Ha Hv. rewrite (update_raw_link_cases _ _ _ Hv Ha).
      eexists. split; [done|]. by destruct v as [| | | |[|]| | | |].
    + intros Hd. exfalso. revert Hd. by_decide.
    + intros d ts w Hw. by apply (inj Some) in Hw as <-.
Qed.

(** * Properties of [get_ping_for_commit] *)

(** X18: on a normalised record [get_ping_for_commit] never raises: it
    returns the mentions of [ping], which all start with ['@'], joined by
    spaces when [ping_enabled] is true, and the empty string when it is
    false. *)
Theorem get_ping_for_commit_normalized (c c' : content) :
  normalize c = Ok c' →
  ∃ (b : bool) (l : list string),
    c' !! "ping_enabled" = Some (VBool b) ∧
    c' !! "ping" = Some (VList (VStr <$> l)) ∧
    Forall (λ s, startswith_at s = true) l ∧
    get_ping_for_commit c' = Ok (if b then join " " l else "").
Proof.
  intros H.
  destruct (normalize_bool_field _ _ "ping_enabled" H ltac:(by_decide)) as (b & Hb).
  destruct (normalize_ping_field _ _ H) as (v & Hv & l & -> & Hl).
  exists b, l. split_and!; [done..|].
  unfold get_ping_for_commit. rewrite Hb, Hv. destruct b; [|done].
  destruct l as [|s l]; [done|].
  assert (truthy (VList (VStr <$> s :: l)) = true) as -> by done.
  cbn [is_True andb iterate mbind result_bind]. by rewrite mapM_join_item.
Qed.

(** X19: on a record that was not normalised, with [ping_enabled] true,
    [get_ping_for_commit] raises [TypeError] when [ping] is truthy and
    not iterable, and when it is a list with an entry that is not a
    string. *)
Theorem get_ping_for_commit_malformed (c : content) (v : value) :
  c !! "ping_enabled" = Some (VBool true) → c !! "ping" = Some v →
  (truthy v = true → iterate v = Raise TypeError →
     get_ping_for_commit c = Raise TypeError) ∧
  (∀ (l1 : list string) (x : value) (l2 : list value),
     v = VList ((VStr <$> l1) ++ x :: l2) → isinstance_str x = false →
     get_ping_for_commit c = Raise TypeError).
Proof.
  intros He Hv. unfold get_ping_for_commit. rewrite He, Hv. split.
  - intros -> ->. done.
  - intros l1 x l2 -> Hx.
    assert (truthy (VList ((VStr <$> l1) ++ x :: l2)) = true) as -> by by destruct l1.
    cbn [is_True andb iterate mbind result_bind].
    rewrite (mapM_Raise join_item (VStr <$> l1) l2 x TypeError); [done| |by destruct x].
    intros y Hy. apply list_elem_of_fmap in Hy as (s & -> & _). cbn. eauto.
Qed.

(** * Properties of [store] *)

Lemma local_copy_Ok_intro (c : content) :
  (∀ k v, c !! k = Some v → ∃ v', store_value k v = Ok v') →
  ∃ j, local_copy c = Ok j.
Proof.
  unfold local_copy.
  apply (map_fold_weak_ind (λ (r : result content) (m : content),
           (∀ k v, m !! k = Some v → ∃ v', store_value k v = Ok v') → ∃ j, r = Ok j)).
  - eauto.
  - intros i x m r Hi IH Hall. destruct IH as (j & ->).
    { intros k v Hk. apply Hall. rewrite lookup_insert_ne; [done|]. congruence. }
    destruct (Hall i x (lookup_insert_eq _ _ _)) as (v' & Hv').
    cbn [mbind result_bind]. rewrite Hv'. cbn. eauto.
Qed.

Lemma local_copy_lookup_inv (c j : content) (k : string) (v' : value) :
  local_copy c = Ok j → j !! k = Some v' →
  ∃ v, c !! k = Some v ∧ store_value k v = Ok v'.
Proof.
  intros H Hj. pose proof (local_copy_lookup _ _ k H) as Hk.
  destruct (c !! k) as [v|]; [|congruence].
  destruct Hk as (w & Hw & Hjw). exists v. split; [done|]. congruence.
Qed.

Lemma store_Ok_encodable (c j : content) :
  store c = Ok j → map_Forall (λ _ v, json_encodable v = true) j.
Proof.
  unfold store. intros H. apply bind_Ok in H as (j' & _ & H).
  case_decide; [|done]. by apply Ok_inj in H as <-.
Qed.

Lemma store_intro (c j : content) :
  local_copy c = Ok j → map_Forall (λ _ v, json_encodable v = true) j → store c = Ok j.
Proof. intros H Hj. unfold store. rewrite H. cbn. by rewrite decide_True. Qed.

Lemma store_value_storable (k : string) (v v' : value) :
  storable k v → store_value k v = Ok v' → json_encodable v' = true.
Proof.
  intros Hs H. destruct v; cbn in Hs, H; try (by apply Ok_inj in H as <-).
  destruct (endswith k "_timestamp").
  - destruct (timestamp t) as [f|[]]; try discriminate; by apply Ok_inj in H as <-.
  - destruct (endswith k "_datetime"); [by apply Ok_inj in H as <-|].
    by destruct Hs.
Qed.

Lemma store_value_returns (k : string) (v : value) :
  (∃ v', store_value k v = Ok v')
  ∨ (∃ t e, v = VDatetime t ∧ timestamp t = Raise e ∧ e ≠ OSError).
Proof.
  destruct v; cbn; eauto.
  destruct (endswith k "_timestamp"); [|destruct (endswith k "_datetime"); eauto].
  destruct (timestamp t) as [f|e] eqn:E; [eauto|].
  destruct e; eauto; right; eexists t, _; by split_and!.
Qed.

(** X20: what [store] writes.  The object has the fields of the record
    and holds no [datetime] and no UUID at any depth; a value that is
    neither is written as it is, a UUID as its string, and a [datetime]
    under a key that does not end in [_timestamp] as its ISO text. *)
Theorem store_fields (c j : content) :
  store c = Ok j →
  dom j = dom c ∧
  map_Forall (λ _ v, json_encodable v = true) j ∧
  (∀ k v, c !! k = Some v → isinstance_datetime v = false → isinstance_UUID v = false →
     j !! k = Some v) ∧
  (∀ k u, c !! k = Some (VUUID u) → j !! k = Some (VStr (str_of_uuid u))) ∧
  (∀ k t, c !! k = Some (VDatetime t) → endswith k "_timestamp" = false →
     j !! k = Some (VStr (isoformat t))).
Proof.
  intros H. pose proof (store_Ok_encodable _ _ H) as Henc.
  pose proof (store_Ok _ _ H) as Hcopy.
  assert (∀ k v, c !! k = Some v → ∃ v', store_value k v = Ok v' ∧ j !! k = Some v')
    as Hlook.
  { intros k v Hk. pose proof (local_copy_lookup _ _ k Hcopy) as Hl. by rewrite Hk in Hl. }
  split_and!; [|done| | |].
  - apply set_eq. intros k. rewrite !elem_of_dom.
    pose proof (local_copy_lookup _ _ k Hcopy) as Hl.
    destruct (c !! k) as [v|]; [|by rewrite Hl].
    destruct Hl as (v' & _ & ->). split; eauto.
  - intros k v Hk Hd Hu. destruct (Hlook k v Hk) as (v' & Hv' & ->).
    destruct v; try discriminate; by apply Ok_inj in Hv' as <-.
  - intros k u Hk. destruct (Hlook _ _ Hk) as (v' & Hv' & ->).
    by apply Ok_inj in Hv' as <-.
  - intros k t Hk Hts. destruct (Hlook _ _ Hk) as (v' & Hv' & Hj).
    cbn in Hv'. rewrite Hts in Hv'. destruct (endswith k "_datetime").
    + by apply Ok_inj in Hv' as <-.
    + apply Ok_inj in Hv' as <-. by pose proof (Henc _ _ Hj).
Qed.

(** X21: a [datetime] under a key that ends in [_timestamp] is written as
    the float that [timestamp()] returns, and as [0.0] when [timestamp()]
    raises [OSError]; no other outcome lets [store] return. *)
Theorem store_timestamp (c j : content) (k : string) (t : datetime) :
  store c = Ok j → c !! k = Some (VDatetime t) → endswith k "_timestamp" = true →
  (∃ f, timestamp t = Ok f ∧ j !! k = Some (VFloat f))
  ∨ (timestamp t = Raise OSError ∧ j !! k = Some (VFloat float_zero)).
Proof.
  intros H Hk Hts. pose proof (local_copy_lookup _ _ k (store_Ok _ _ H)) as Hl.
  rewrite Hk in Hl. destruct Hl as (v' & Hv' & ->).
  cbn in Hv'. rewrite Hts in Hv'.
  destruct (timestamp t) as [f|[]]; try discriminate; apply Ok_inj in Hv' as <-; eauto.
Qed.

(** X22: [store] does not return when the record holds a [datetime]
    under a key that ends neither in [_timestamp] nor in [_datetime]:
    nothing is written that [json] cannot encode. *)
Theorem store_rejects_datetime (c : content) (k : string) (t : datetime) :
  c !! k = Some (VDatetime t) →
  endswith k "_timestamp" = false → endswith k "_datetime" = false →
  ∃ e, store c = Raise e.
Proof.
  intros Hk Hts Hdt. destruct (store c) as [j|e] eqn:H; [exfalso|eauto].
  pose proof (local_copy_lookup _ _ k (store_Ok _ _ H)) as Hl.
  rewrite Hk in Hl. destruct Hl as (v' & Hv' & Hj).
  cbn in Hv'. rewrite Hts, Hdt in Hv'. apply Ok_inj in Hv' as <-.
  by pose proof (store_Ok_encodable _ _ H _ _ Hj).
Qed.

(** ** [store] after the normalisation *)

Lemma json_encodable_storable (k : string) (v : value) :
  json_encodable v = true → storable k v.
Proof. by destruct v. Qed.

Lemma json_encodable_strings (l : list string) :
  json_encodable (VList (VStr <$> l)) = true.
Proof. cbn. induction l as [|s l IH]; [done|]. cbn. exact IH. Qed.

Lemma for_each_invariant (P : content → Prop) body (l : list string) (c c' : content) :
  (∀ i d d', i ∈ l → P d → body i d = Ok d' → P d') →
  P c → for_each body l c = Ok c' → P c'.
Proof.
  revert c. induction l as [|i l IH]; intros c Hbody Hc H; cbn in H.
  - by apply Ok_inj in H as <-.
  - apply bind_Ok in H as (d & Hd & H). apply (IH d); [|by eapply Hbody; [left|..]|done].
    intros j e e' Hj. apply Hbody. by right.
Qed.

Lemma insert_storable (c : content) (k : string) (v : value) :
  storable k v → map_Forall storable c → map_Forall storable (<[k := v]> c).
Proof. intros. by apply map_Forall_insert_2. Qed.

Lemma update_storable (c c' : content) :
  map_Forall (λ _ v, json_encodable v = true) c →
  (∀ d, c !! "custom_pyfunceble_config" = Some (VDict d) →
        json_encodable (VDict (flatten d)) = true) →
  update c = Ok c' → map_Forall storable c'.
Proof.
  intros Hjson Hflat H. update_inv H. subst c'.
  assert (map_Forall storable c) as Hc
    by (intros k v Hk; by apply json_encodable_storable, (Hjson k)).
  assert (map_Forall storable c1) as Hc1.
  { unfold update_ping in Hping. destruct (_ !! "ping") as [v|].
    - apply bind_Ok in Hping as (items & _ & Hping).
      apply bind_Ok in Hping as (r & Hr & Hping). apply Ok_inj in Hping as <-.
      destruct (mapM_ping_entry_inv _ _ Hr) as (l & _ & ->).
      apply insert_storable; [apply json_encodable_strings|]. by apply insert_storable.
    - apply Ok_inj in Hping as <-. by apply insert_storable. }
  assert (map_Forall storable (update_raw_link c1)) as Hraw.
  { unfold update_raw_link. destruct (c1 !! "raw_link"); [|done].
    destruct (_ && _); [by apply insert_storable|done]. }
  assert (map_Forall storable (update_custom_config (update_raw_link c1))) as Hcustom.
  { assert (update_raw_link c1 !! "custom_pyfunceble_config"
            = c !! "custom_pyfunceble_config") as Hsame by (by frame).
    unfold update_custom_config. rewrite Hsame.
    destruct (c !! "custom_pyfunceble_config") as [v|] eqn:Hv; [|done].
    destruct (truthy v); [destruct v|]; try (by apply insert_storable).
    apply insert_storable; [|done]. by apply Hflat. }
  assert (map_Forall storable
            (update_custom_config_again (update_custom_config (update_raw_link c1))))
    as Hagain.
  { revert Hcustom. generalize (update_custom_config (update_raw_link c1)). intros X HX.
    unfold update_custom_config_again. destruct (X !! "custom_pyfunceble_config"); [|done].
    destruct (_ && _); [by apply insert_storable|done]. }
  assert (map_Forall storable c2) as Hc2.
  { refine (for_each_invariant (map_Forall storable) _ _ _ _ _ Hagain Hbool).
    intros i d d' _ Hd Hb. unfold coerce_bool in Hb.
    destruct (d !! i) as [x|]; [|by apply Ok_inj in Hb as <-].
    destruct (negb _); [apply bind_Ok in Hb as (? & _ & Hb)|];
      apply Ok_inj in Hb as <-; by try apply insert_storable. }
  assert (map_Forall storable c3) as Hc3.
  { refine (for_each_invariant (map_Forall storable) _ _ _ _ _ Hc2 Hfloat).
    intros i d d' _ Hd Hb. unfold coerce_float in Hb.
    destruct (d !! i) as [x|]; [|by apply Ok_inj in Hb as <-].
    destruct (negb _); [apply bind_Ok in Hb as (? & _ & Hb)|];
      apply Ok_inj in Hb as <-; by try apply insert_storable. }
  assert (map_Forall storable c4) as Hc4.
  { refine (for_each_invariant (map_Forall storable) _ _ _ _ _ Hc3 Hts).
    intros i d d' Hi Hd Hb. unfold convert_timestamp in Hb.
    destruct (d !! i) as [x|]; [|by apply Ok_inj in Hb as <-].
    assert (endswith i "_timestamp" = true) as Hend.
    { clear -Hi. repeat (apply elem_of_cons in Hi as [->|Hi]); [reflexivity..|].
      by apply elem_of_nil in Hi. }
    destruct (negb _); [destruct (utcfromtimestamp x) as [?|[]]; try discriminate|];
      apply Ok_inj in Hb as <-; try done; apply insert_storable; try done; by left. }
  assert (map_Forall storable c5) as Hc5.
  { refine (for_each_invariant (map_Forall storable) _ _ _ _ _ Hc4 Hdt).
    intros i d d' Hi Hd Hb. unfold convert_datetime in Hb.
    destruct (d !! i) as [x|]; [|by apply Ok_inj in Hb as <-].
    assert (endswith i "_datetime" = true) as Hend.
    { clear -Hi. repeat (apply elem_of_cons in Hi as [->|Hi]); [reflexivity..|].
      by apply elem_of_nil in Hi. }
    destruct (_ && _); [destruct (fromisoformat x) as [?|[]]; try discriminate|];
      apply Ok_inj in Hb as <-; apply insert_storable; try done; by right. }
  assert (map_Forall storable c6) as Hc6.
  { refine (for_each_invariant (map_Forall storable) _ _ _ _ _ Hc5 Huuid).
    intros i d d' _ Hd Hb. unfold convert_uuid in Hb.
    destruct (d !! i) as [x|]; [|by apply Ok_inj in Hb as <-].
    destruct (_ && _); [apply bind_Ok in Hb as (? & _ & Hb)|];
      apply Ok_inj in Hb as <-; by apply insert_storable. }
  by do 2 (apply insert_storable; [done|]).
Qed.

Lemma indexes_storable (d : datetime) (ts : float) :
  Forall (λ kv, storable kv.1 kv.2) (indexes d ts).
Proof.
  unfold indexes.
  repeat (apply Forall_cons; split; [first [reflexivity|right; reflexivity]|]).
  by apply Forall_nil.
Qed.

Lemma create_missing_index_storable (c c' : content) :
  map_Forall storable c → create_missing_index c = Ok c' → map_Forall storable c'.
Proof.
  intros Hc H. destruct (create_missing_index_Ok _ _ H) as (d & ts & _ & _ & Hc').
  intros k v Hk. rewrite Hc' in Hk. destruct (c !! k) as [x|] eqn:E.
  - apply (inj Some) in Hk as <-. by apply (Hc k).
  - pose proof (indexes_storable d ts) as Hall. revert Hk. clear -Hall.
    induction Hall as [|[k' v'] l Hkv _ IH]; cbn [first_value]; [done|].
    destruct (String.eqb_spec k' k) as [->|]; [|done].
    intros Hv. by apply (inj Some) in Hv as <-.
Qed.

Lemma normalize_storable (c c' : content) :
  map_Forall (λ _ v, json_encodable v = true) c →
  (∀ d, c !! "custom_pyfunceble_config" = Some (VDict d) →
        json_encodable (VDict (flatten d)) = true) →
  normalize c = Ok c' → map_Forall storable c'.
Proof.
  intros Hjson Hflat H. apply normalize_Ok in H as (a & b & Ha & Hb & ->).
  pose proof (create_missing_index_storable _ _ (update_storable _ _ Hjson Hflat Ha) Hb)
    as Hsb.
  intros k v Hk. rewrite clean_lookup_cases in Hk. case_decide; [done|]. by apply (Hsb k).
Qed.

Lemma store_values_return (c : content) :
  (∀ k v, c !! k = Some v → ∃ v', store_value k v = Ok v')
  ∨ (∃ k t e, c !! k = Some (VDatetime t) ∧ timestamp t = Raise e ∧ e ≠ OSError).
Proof.
  induction c as [|i x m Hi IH] using map_ind.
  - left. intros k v Hk. by rewrite lookup_empty in Hk.
  - destruct IH as [IH|(k & t & e & Hk & He & Hne)].
    + destruct (store_value_returns i x) as [Hx|(t & e & -> & He & Hne)].
      * left. intros k v Hk. destruct (decide (i = k)) as [->|Hik].
        -- rewrite lookup_insert_eq in Hk. by apply (inj Some) in Hk as <-.
        -- rewrite lookup_insert_ne in Hk by done. by apply IH.
      * right. exists i, t, e. by rewrite lookup_insert_eq.
    + right. exists k, t, e. rewrite lookup_insert_ne; [done|]. congruence.
Qed.

(** X23: for a record that was loaded from JSON and that the
    normalisation accepts, the loop of [store] builds its object, unless
    [timestamp()] raises something else than [OSError] on an instant of
    the record, and the object it hands to the JSON writer holds no
    [datetime] and no UUID at any depth: the writer is never given a value
    that [json] cannot encode.  (The flattened configuration has to be
    JSON, as the loaded one was.) *)
Theorem local_copy_after_normalize (c c' : content) :
  map_Forall (λ _ v, json_encodable v = true) c →
  (∀ d, c !! "custom_pyfunceble_config" = Some (VDict d) →
        json_encodable (VDict (flatten d)) = true) →
  normalize c = Ok c' →
  (∃ j, local_copy c' = Ok j ∧ map_Forall (λ _ v, json_encodable v = true) j)
  ∨ (∃ k t e, c' !! k = Some (VDatetime t) ∧ timestamp t = Raise e ∧ e ≠ OSError).
Proof.
  intros Hjson Hflat H. pose proof (normalize_storable _ _ Hjson Hflat H) as Hs.
  destruct (store_values_return c') as [Hall|Hbad]; [left|by right].
  destruct (local_copy_Ok_intro c' Hall) as (j & Hj).
  exists j. split; [done|].
  intros k v' Hk. destruct (local_copy_lookup_inv _ _ _ _ Hj Hk) as (v & Hv & Hsv).
  by apply (store_value_storable k v v'); [apply (Hs k)|].
Qed.

(** * Properties of [__init__] *)

Lemma normalize_platform_optout (c c' : content) :
  normalize c = Ok c' →
  c' !! "platform_optout"
  = Some (default (VBool (negb (String.eqb GIT_REPO_OWNER "dead-hosts")))
            (c !! "platform_optout")).
Proof.
  intros H.
  destruct (normalize_lookup _ _ "platform_optout" H ltac:(by_decide))
    as (a & d & ts & Ha & ->).
  rewrite (update_keeps_unmanaged _ _ "platform_optout" ltac:(by_decide) Ha).
  by destruct (c !! "platform_optout").
Qed.

(** X24: [__init__] uses the project's configuration directory exactly
    when the loaded record holds the boolean [True] under
    [platform_optout], or holds nothing there and the owner of the
    repository is not [dead-hosts]; in every other case, a stored [1] or
    ["true"] included, it uses the temporary directory. *)
Theorem init_config_dir (file : option content) (c j : content) (d : config_dir) :
  init file = Ok (c, j, d) →
  normalize (load file) = Ok c ∧ store c = Ok j ∧
  (d = ProjectConfigDir ↔
     load file !! "platform_optout" = Some (VBool true)
     ∨ (load file !! "platform_optout" = None ∧ GIT_REPO_OWNER ≠ "dead-hosts")).
Proof.
  unfold init. intros H.
  apply bind_Ok in H as (c0 & Hn & H). apply bind_Ok in H as (j0 & Hs & H).
  apply bind_Ok in H as (optout & Ho & H). apply Ok_inj in H.
  injection H as <- <- <-. split_and!; [done..|].
  unfold getitem in Ho. rewrite (normalize_platform_optout _ _ Hn) in Ho.
  apply Ok_inj in Ho as <-.
  destruct (load file !! "platform_optout") as [x|]; cbn [default].
  - split.
    + intros Hd. left. by destruct x as [|[]| | | | | | |].
    + intros [[= ->]|[? _]]; done.
  - destruct (String.eqb_spec GIT_REPO_OWNER "dead-hosts") as [->|Hne]; cbn.
    + split; [done|]. intros [|[_ ?]]; done.
    + split; [by right|done].
Qed.

Lemma first_value_None (k : string) (l : list (string * value)) :
  k ∉ l.*1 → first_value k l = None.
Proof.
  intros Hk. destruct (first_value k l) eqn:Hf; [|done].
  exfalso. apply Hk. apply first_value_is_Some. by rewrite Hf.
Qed.

(** X25: reading a field of a normalised record, as [__init__] reads
    [platform_optout]: each of the 25 default fields is returned, each of
    the eight obsolete fields raises [AttributeError] whatever the file
    held, and a field that the normalisation does not know is returned,
    or raises, as on the loaded record. *)
Theorem normalize_getitem (c c' : content) :
  normalize c = Ok c' →
  (∀ index, index ∈ default_indexes → ∃ v, getitem c' index = Ok v) ∧
  (∀ index, index ∈ obsolete_indexes → getitem c' index = Raise AttributeError) ∧
  (∀ index, index ∉ default_indexes → index ∉ obsolete_indexes →
     index ∉ managed_indexes → getitem c' index = getitem c index).
Proof.
  intros H. unfold getitem. split_and!.
  - intros index Hin.
    destruct (normalize_lookup _ _ index H (defaults_not_obsolete _ Hin))
      as (a & d & ts & _ & ->).
    destruct (a !! index) as [v|]; [by eauto|].
    assert (is_Some (first_value index (indexes d ts))) as [w ->]; [|by eauto].
    apply first_value_is_Some. exact Hin.
  - intros index Hin. apply normalize_Ok in H as (a & b & _ & _ & ->).
    by rewrite clean_obsolete.
  - intros index Hdef Hobs Hman.
    destruct (normalize_lookup _ _ index H Hobs) as (a & d & ts & Ha & ->).
    rewrite (update_keeps_unmanaged _ _ index Hman Ha).
    destruct (c !! index) as [v|]; [done|].
    by rewrite first_value_None.
Qed.

End Properties.

(** * The properties on concrete hosts *)

(** Evaluates a closed goal. *)
Ltac evaluate := vm_compute; reflexivity.

(** ** The hosts against CPython

    Readings of CPython 3.11 on Linux, as the model computes them. *)

Example utcfromtimestamp_on_linux :
  utcfromtimestamp (env:=linux_utc) (VInt (-62135596800))
  = Ok (DateTime (-62135596800000000) None) ∧
  raised (utcfromtimestamp (env:=linux_utc) (VInt (-62135596801))) = Some ValueError ∧
  raised (utcfromtimestamp (env:=linux_utc) (VInt 253402300800)) = Some ValueError ∧
  raised (utcfromtimestamp (env:=linux_utc) (VInt 67768036191676799)) = Some ValueError ∧
  raised (utcfromtimestamp (env:=linux_utc) (VInt 67768036191676800)) = Some OSError ∧
  raised (utcfromtimestamp (env:=linux_utc) (VInt 9223372036854775808)) = Some OverflowError ∧
  raised (utcfromtimestamp (env:=linux_utc) (VStr "5")) = Some TypeError ∧
  raised (utcfromtimestamp (env:=linux_utc) (VFloat S754_nan)) = Some ValueError ∧
  utcfromtimestamp (env:=linux_utc) (VBool true) = Ok (DateTime 1000000 None).
Proof. split_and!; evaluate. Qed.

(** At the bounds of [time_t]: an [int] beyond them is refused with
    [OverflowError], as is a float beyond [2^63]; the float [2^63] itself
    and every value within the bounds reach [gmtime], which refuses them
    with [OSError]. *)
Example utcfromtimestamp_at_time_t_bounds :
  raised (utcfromtimestamp (env:=linux_utc) (VFloat (float_of_scaled (2 ^ 63) 0)))
  = Some OSError ∧
  raised (utcfromtimestamp (env:=linux_utc) (VFloat (float_of_scaled (2 ^ 63 + 2048) 0)))
  = Some OverflowError ∧
  raised (utcfromtimestamp (env:=linux_utc) (VFloat (float_of_scaled (2 ^ 63 - 1024) 0)))
  = Some OSError ∧
  raised (utcfromtimestamp (env:=linux_utc) (VFloat (float_of_scaled (- 2 ^ 63) 0)))
  = Some OSError ∧
  raised (utcfromtimestamp (env:=linux_utc) (VFloat (float_of_scaled (- 2 ^ 63 - 2048) 0)))
  = Some OverflowError ∧
  raised (utcfromtimestamp (env:=linux_utc) (VInt (2 ^ 63 - 1))) = Some OSError ∧
  raised (utcfromtimestamp (env:=linux_utc) (VInt (- 2 ^ 63))) = Some OSError ∧
  raised (utcfromtimestamp (env:=linux_utc) (VInt (- 2 ^ 63 - 1))) = Some OverflowError.
Proof. split_and!; evaluate. Qed.

(** [0.9999995] rounds up to the next second, [0.9999994999] does not, and
    [-1.5] is a second and a half before the epoch. *)
Example utcfromtimestamp_rounds_half_even :
  (f ← from_option Ok (Raise ValueError) (Host.float_of_str "0.9999995"); float_to_us f)
  = Ok 1000000 ∧
  (f ← from_option Ok (Raise ValueError) (Host.float_of_str "0.9999994999"); float_to_us f)
  = Ok 999999 ∧
  (f ← from_option Ok (Raise ValueError) (Host.float_of_str "-1.5"); float_to_us f)
  = Ok (-1500000).
Proof. split_and!; evaluate. Qed.

Example float_of_str_correctly_rounded :
  Host.float_of_str "0.1" = Some (S754_finite false 7205759403792794 (-56)) ∧
  Host.float_of_str "1e23" = Some (S754_finite false 5960464477539062 24) ∧
  Host.float_of_str "5e-324" = Some (S754_finite false 1 (-1074)) ∧
  Host.float_of_str "1e400" = Some (S754_infinity false) ∧
  Host.float_of_str "1e" = None.
Proof. split_and!; evaluate. Qed.

Example timestamp_reads_local_time :
  Host.timestamp Host.Posix 0 (DateTime 0 None) = Ok float_zero ∧
  Host.timestamp Host.Posix 3600 (DateTime 0 None) = Ok (float_of_scaled (-3600) 0) ∧
  Host.timestamp Host.Posix (-18000) (DateTime 0 None) = Ok (float_of_scaled 18000 0) ∧
  raised (Host.timestamp Host.Posix 0 (DateTime (-62135596800000000) None))
  = Some ValueError.
Proof. split_and!; evaluate. Qed.

Example isoformat_and_back :
  Host.isoformat (DateTime 1582979415123456 None) = "2020-02-29T12:30:15.123456" ∧
  Host.fromisoformat_str "2020-02-29T12:30:15.123456"
  = Some (DateTime 1582979415123456 None) ∧
  Host.fromisoformat_str "2021-02-29T12:30:15" = None ∧
  Host.isoformat (DateTime 0 (Some 7200)) = "1970-01-01T00:00:00+02:00".
Proof. split_and!; evaluate. Qed.

Example uuid_and_back :
  Host.uuid_of_str "{urn:uuid:12345678123456781234567812345678}"
  = Some (UUID 24197857161011715162171839636988778104) ∧
  Host.str_of_uuid (UUID 24197857161011715162171839636988778104)
  = "12345678-1234-5678-1234-567812345678" ∧
  Host.uuid_of_str "x" = None.
Proof. split_and!; evaluate. Qed.

(** ** [repo] *)

Lemma update_repo_witness :
  ∃ c', update (env:=linux_utc) {["repo" := VStr "someone/else"]} = Ok c'
        ∧ c' !! "repo" = Some (VStr "dead-hosts/My [Cool] List.txt").
Proof.
  assert (field_of "repo" (update (env:=linux_utc) {["repo" := VStr "someone/else"]})
          = Ok (Some (VStr "dead-hosts/My [Cool] List.txt"))) as H by evaluate.
  apply field_of_Ok in H as (c' & H & _).
  exists c'. split; [exact H|]. exact (update_repo _ _ H).
Defined.

(** ** [platform_container_name] *)

Lemma update_platform_container_name_witness :
  ∃ c' name,
    update (env:=linux_utc) ∅ = Ok c' ∧
    c' !! "name" = Some (VStr name) ∧
    c' !! "platform_container_name" = Some (VStr (derived_container_name name)).
Proof.
  assert (field_of "name" (update (env:=linux_utc) ∅)
          = Ok (Some (VStr "My [Cool] List.txt"))) as H by evaluate.
  apply field_of_Ok in H as (c' & H & _).
  destruct (update_platform_container_name _ _ H) as (name & Hn & Hc & _).
  exists c', name. split_and!; [exact H|exact Hn|exact Hc].
Defined.

(** C3 as stated fails: for the name [My [Cool] List.txt] the
    specification gives [my-cool-listtxt], and [update] stores
    [my-cool-list-txt]. *)
Lemma container_name_dot_becomes_dash :
  field_of "name" (update (env:=linux_utc) ∅) = Ok (Some (VStr "My [Cool] List.txt")) ∧
  specified_container_name "My [Cool] List.txt" = "my-cool-listtxt" ∧
  field_of "platform_container_name" (update (env:=linux_utc) ∅)
  = Ok (Some (VStr "my-cool-list-txt")) ∧
  field_of "platform_container_name" (update (env:=linux_utc) ∅)
  ≠ Ok (Some (VStr (specified_container_name "My [Cool] List.txt"))).
Proof. split_and!; [evaluate..|vm_compute; discriminate]. Qed.

(** ** [ping] *)

Lemma update_ping_mentions_witness :
  ∃ c' l',
    update (env:=linux_utc) {["ping" := VList [VStr "alice"; VStr "@bob"]]} = Ok c' ∧
    c' !! "ping" = Some (VList (VStr <$> l')) ∧ length l' = 2%nat.
Proof.
  assert (field_of "ping"
            (update (env:=linux_utc) {["ping" := VList [VStr "alice"; VStr "@bob"]]})
          = Ok (Some (VList [VStr "@alice"; VStr "@bob"]))) as H by evaluate.
  apply field_of_Ok in H as (c' & H & _).
  assert (({["ping" := VList [VStr "alice"; VStr "@bob"]]} : content) !! "ping"
          = Some (VList (VStr <$> ["alice"; "@bob"]))) as Hl by evaluate.
  destruct (update_ping_mentions _ c' _ Hl H) as (l' & Hl' & Hlen & _).
  exists c', l'. split_and!; [exact H|exact Hl'|exact Hlen].
Defined.

Example update_ping_alice_bob :
  field_of "ping" (update (env:=linux_utc) {["ping" := VList [VStr "alice"; VStr "@bob"]]})
  = Ok (Some (VList [VStr "@alice"; VStr "@bob"])).
Proof. evaluate. Qed.

(** C6 as stated fails: an entry that starts with two ['@'] passes
    through unchanged, so the output entry does not start with exactly
    one. *)
Lemma update_ping_keeps_double_at :
  field_of "ping" (update (env:=linux_utc) {["ping" := VList [VStr "@@bob"]]})
  = Ok (Some (VList [VStr "@@bob"])) ∧
  leading_ats "@@bob" = 2%nat.
Proof. split; evaluate. Qed.

(** ** [get_ping_for_commit] *)

Lemma get_ping_for_commit_text_witness :
  get_ping_for_commit
    (<["ping_enabled" := VBool true]> {["ping" := VList [VStr "@alice"; VStr "@bob"]]})
  = Ok "@alice @bob"
  ∧ get_ping_for_commit
      (<["ping_enabled" := VBool false]> {["ping" := VList [VStr "@alice"; VStr "@bob"]]})
    = Ok "".
Proof.
  split.
  - apply (proj1 (get_ping_for_commit_text _) ["@alice"; "@bob"]);
      [reflexivity|reflexivity|discriminate].
  - apply (proj1 (proj2 (proj2 (get_ping_for_commit_text _)))). reflexivity.
Defined.

Lemma get_ping_for_commit_empty_witness :
  truthy (VInt 1) = true ∧
  get_ping_for_commit
    (<["ping_enabled" := VInt 1]> {["ping" := VList [VStr "@alice"; VStr "@bob"]]})
  = Ok "".
Proof.
  split; [reflexivity|]. apply get_ping_for_commit_empty.
  right. right. exists (VInt 1). split; [reflexivity|discriminate].
Defined.

(** ** The identifier fields *)


Example update_uuid_parsed :
  field_of "platform_remote_source_id"
    (update (env:=linux_utc)
       {["platform_remote_source_id" := VStr "12345678-1234-5678-1234-567812345678"]})
  = Ok (Some (VUUID (UUID 24197857161011715162171839636988778104))).
Proof. evaluate. Qed.

(** ** The float loop *)

(** C2 fails on the code for [latest_part_finish_timestamp]: the literal
    that the missing comma joins swallows it together with
    [last_download_timestamp].  The float loop coerces an integer in
    [finish_timestamp] and leaves the one in [latest_part_finish_timestamp];
    so a timestamp stored as the string ["5"] is accepted in
    [finish_timestamp] and makes [update] raise [TypeError] in
    [latest_part_finish_timestamp]. *)
Theorem float_loop_misses_latest_part_finish :
  field_of "finish_timestamp"
    (for_each (coerce_float (env:=linux_utc)) float_indexes
       {["finish_timestamp" := VInt 5]})
  = Ok (Some (VFloat (float_of_scaled 5 0))) ∧
  field_of "latest_part_finish_timestamp"
    (for_each (coerce_float (env:=linux_utc)) float_indexes
       {["latest_part_finish_timestamp" := VInt 5]})
  = Ok (Some (VInt 5)) ∧
  field_of "finish_timestamp"
    (update (env:=linux_utc) {["finish_timestamp" := VStr "5"]})
  = Ok (Some (VDatetime (DateTime 5000000 None))) ∧
  raised (update (env:=linux_utc) {["latest_part_finish_timestamp" := VStr "5"]})
  = Some TypeError.
Proof. split_and!; evaluate. Qed.

(** ** The timestamp loop *)



(** ** Running the normalisation again *)

Lemma normalize_twice_differs_witness :
  ∃ c1, normalize (env:=linux_utc) ∅ = Ok c1 ∧ normalize (env:=linux_utc) c1 ≠ Ok c1.
Proof.
  assert (field_of "name" (normalize (env:=linux_utc) ∅)
          = Ok (Some (VStr "My [Cool] List.txt"))) as H by evaluate.
  apply field_of_Ok in H as (c1 & H & _).
  exists c1. split; [exact H|]. exact (normalize_twice_differs _ _ H).
Defined.

(** Without an administration file: the first run creates
    [finish_timestamp] as a float and [finish_datetime] as the default
    instant (2026-10-19T12:00:00); the second run turns the former into a
    [datetime] and the latter into the epoch; the third run raises. *)
Example normalize_absent_file_again :
  let once := normalize (env:=linux_utc) ∅ in
  let twice := once ≫= normalize (env:=linux_utc) in
  field_of "finish_timestamp" once = Ok (Some (VFloat (float_of_scaled 1792411200 0))) ∧
  field_of "finish_timestamp" twice
  = Ok (Some (VDatetime (DateTime 1792411200000000 None))) ∧
  field_of "finish_datetime" once
  = Ok (Some (VDatetime (DateTime 1792411200000000 None))) ∧
  field_of "finish_datetime" twice = Ok (Some (VDatetime (DateTime 0 None))) ∧
  field_of "days_until_next_test" once = Ok (Some (VInt 2)) ∧
  field_of "days_until_next_test" twice = Ok (Some (VFloat (float_of_scaled 2 0))) ∧
  raised (twice ≫= normalize (env:=linux_utc)) = Some TypeError.
Proof. split_and!; evaluate. Qed.

(** [update] on its own output: a parsed identifier is reset to [None],
    and a converted timestamp makes the second run raise. *)
Example update_again_examples :
  let stored_id := {["platform_container_id" := VStr "12345678-1234-5678-1234-567812345678"]} in
  let stored_ts := {["finish_timestamp" := VFloat float_zero]} in
  field_of "platform_container_id" (update (env:=linux_utc) stored_id)
  = Ok (Some (VUUID (UUID 24197857161011715162171839636988778104))) ∧
  field_of "platform_container_id"
    (update (env:=linux_utc) stored_id ≫= update (env:=linux_utc))
  = Ok (Some VNone) ∧
  field_of "finish_timestamp" (update (env:=linux_utc) stored_ts)
  = Ok (Some (VDatetime (DateTime 0 None))) ∧
  raised (update (env:=linux_utc) stored_ts ≫= update (env:=linux_utc)) = Some TypeError.
Proof. split_and!; evaluate. Qed.

(** ** Persisting and loading again *)

(** C5 fails on the code on a host whose local time is not UTC: [update]
    reads a stored timestamp as UTC, and [store] writes it back with
    [timestamp()], which reads the naive value as local time.  One hour
    east of UTC, the stored instant [0.0] is loaded as the epoch, written
    as [-3600.0], and loaded again as 1969-12-31T23:00:00. *)
Theorem persist_then_load_shifts_timestamp :
  let file := Some {["finish_timestamp" := VFloat float_zero]} in
  field_of "finish_timestamp" (loaded (env:=linux_cet) file)
  = Ok (Some (VDatetime (DateTime 0 None))) ∧
  field_of "finish_timestamp" (persisted (env:=linux_cet) file)
  = Ok (Some (VFloat (float_of_scaled (-3600) 0))) ∧
  field_of "finish_timestamp"
    (j ← persisted (env:=linux_cet) file; loaded (env:=linux_cet) (Some j))
  = Ok (Some (VDatetime (DateTime (-3600000000) None))).
Proof. split_and!; evaluate. Qed.

(** On a host in UTC the same file comes back as it was loaded. *)
Example persist_then_load_in_utc :
  let file := Some {["finish_timestamp" := VFloat float_zero]} in
  field_of "finish_timestamp" (persisted (env:=linux_utc) file)
  = Ok (Some (VFloat float_zero)) ∧
  field_of "finish_timestamp"
    (j ← persisted (env:=linux_utc) file; loaded (env:=linux_utc) (Some j))
  = field_of "finish_timestamp" (loaded (env:=linux_utc) file).
Proof. split; evaluate. Qed.

(** * The further properties on concrete hosts *)

Lemma update_list_name_not_str_witness :
  update (env:=linux_utc) {["list_name" := VInt 5]} = Raise TypeError.
Proof.
  assert (({["list_name" := VInt 5]} : content) !! "list_name" = Some (VInt 5)) as Hv
    by evaluate.
  exact (update_list_name_not_str _ _ Hv eq_refl).
Defined.

Lemma update_ping_malformed_witness :
  update (env:=linux_utc) {["ping" := VList [VStr "a"; VInt 1]]} = Raise AttributeError.
Proof.
  assert (({["ping" := VList [VStr "a"; VInt 1]]} : content) !! "ping"
          = Some (VList [VStr "a"; VInt 1])) as Hv by evaluate.
  assert (({["ping" := VList [VStr "a"; VInt 1]]} : content) !! "list_name" = None) as Hn
    by evaluate.
  assert (∀ x, ({["ping" := VList [VStr "a"; VInt 1]]} : content) !! "list_name" = Some x
               → isinstance_str x = true) as Hln by (intros x Hx; congruence).
  exact (proj2 (update_ping_malformed _ _ Hln Hv) ["a"] (VInt 1) [] eq_refl eq_refl).
Defined.

Lemma update_raw_link_field_witness :
  ∃ c', update (env:=linux_utc) {["raw_link" := VStr ""]} = Ok c'
        ∧ c' !! "raw_link" = Some VNone.
Proof.
  assert (field_of "raw_link" (update (env:=linux_utc) {["raw_link" := VStr ""]})
          = Ok (Some VNone)) as H by evaluate.
  apply field_of_Ok in H as (c' & H & _).
  assert (({["raw_link" := VStr ""]} : content) !! "raw_link" = Some (VStr "")) as Hv
    by evaluate.
  exists c'. split; [exact H|].
  exact (proj1 (update_raw_link_field _ _ _ Hv H) eq_refl).
Defined.

Lemma update_custom_config_field_witness :
  ∃ c', update (env:=linux_utc)
          {["custom_pyfunceble_config" := VDict [("a", VDict [("b", VInt 1)])]]} = Ok c'
        ∧ c' !! "custom_pyfunceble_config" = Some (VDict [("a.b", VInt 1)]).
Proof.
  assert (field_of "custom_pyfunceble_config"
            (update (env:=linux_utc)
               {["custom_pyfunceble_config" := VDict [("a", VDict [("b", VInt 1)])]]})
          = Ok (Some (VDict [("a.b", VInt 1)]))) as H by evaluate.
  apply field_of_Ok in H as (c' & H & _).
  assert (({["custom_pyfunceble_config" := VDict [("a", VDict [("b", VInt 1)])]]}
             : content) !! "custom_pyfunceble_config"
          = Some (VDict [("a", VDict [("b", VInt 1)])])) as Hv by evaluate.
  exists c'. split; [exact H|].
  exact (proj1 (update_custom_config_field _ _ _ Hv H) _ _ eq_refl).
Defined.

Lemma update_bool_field_witness :
  ∃ c' b, update (env:=linux_utc) {["ping_enabled" := VInt 1]} = Ok c'
          ∧ c' !! "ping_enabled" = Some (VBool b).
Proof.
  assert (field_of "ping_enabled" (update (env:=linux_utc) {["ping_enabled" := VInt 1]})
          = Ok (Some (VBool true))) as H by evaluate.
  apply field_of_Ok in H as (c' & H & _).
  assert (({["ping_enabled" := VInt 1]} : content) !! "ping_enabled" = Some (VInt 1))
    as Hv by evaluate.
  assert ("ping_enabled" ∈ ["currently_under_test"; "ping_enabled"]) as Hin by by_decide.
  destruct (update_bool_field _ _ _ _ Hin Hv H) as (b & Hb & _).
  exists c', b. split; [exact H|exact Hb].
Defined.

Lemma update_rejects_witness :
  ∃ e, update (env:=linux_utc) {["days_until_next_test" := VNone]} = Raise e.
Proof.
  assert (({["days_until_next_test" := VNone]} : content) !! "days_until_next_test"
          = Some VNone) as Hv by evaluate.
  assert ("days_until_next_test" ∈ float_indexes) as Hin by by_decide.
  apply (update_rejects _ _ _ Hv). left. split_and!; [exact Hin|reflexivity|].
  exists TypeError. reflexivity.
Defined.

Lemma update_datetime_field_witness :
  ∃ c', update (env:=linux_utc) {["finish_datetime" := VStr "2020-02-29T12:30:15"]} = Ok c'
        ∧ c' !! "finish_datetime" = Some (VDatetime (DateTime 1582979415000000 None)).
Proof.
  assert (field_of "finish_datetime"
            (update (env:=linux_utc) {["finish_datetime" := VStr "2020-02-29T12:30:15"]})
          = Ok (Some (VDatetime (DateTime 1582979415000000 None)))) as H by evaluate.
  apply field_of_Ok in H as (c' & H & _).
  assert (({["finish_datetime" := VStr "2020-02-29T12:30:15"]} : content)
            !! "finish_datetime" = Some (VStr "2020-02-29T12:30:15")) as Hv by evaluate.
  assert ("finish_datetime" ∈ datetime_indexes) as Hin by by_decide.
  assert (fromisoformat_str (Env:=linux_utc) "2020-02-29T12:30:15"
          = Some (DateTime 1582979415000000 None)) as Hp by evaluate.
  destruct (update_datetime_field _ _ _ _ Hin Hv H) as (epoch_dt & _ & Hparsed & _).
  exists c'. split; [exact H|]. apply (Hparsed _ _ eq_refl); [discriminate|exact Hp].
Defined.

Lemma update_dom_witness :
  ∃ c', update (env:=linux_utc) {["stable" := VBool true]} = Ok c'
        ∧ dom c' = list_to_set derived_indexes ∪ dom ({["stable" := VBool true]} : content).
Proof.
  assert (field_of "stable" (update (env:=linux_utc) {["stable" := VBool true]})
          = Ok (Some (VBool true))) as H by evaluate.
  apply field_of_Ok in H as (c' & H & _).
  exists c'. split; [exact H|]. exact (proj1 (update_dom _ _ H)).
Defined.

Lemma update_unmanaged_witness :
  ∃ c', update (env:=linux_utc) {["extra" := VInt 7]} = Ok c'
        ∧ filter (λ kv, kv.1 ∉ managed_indexes) c'
          = filter (λ kv, kv.1 ∉ managed_indexes) ({["extra" := VInt 7]} : content).
Proof.
  assert (field_of "extra" (update (env:=linux_utc) {["extra" := VInt 7]})
          = Ok (Some (VInt 7))) as H by evaluate.
  apply field_of_Ok in H as (c' & H & _).
  exists c'. split; [exact H|]. exact (update_unmanaged _ _ H).
Defined.

Lemma update_container_name_shape_witness :
  ∃ c' s, update (env:=linux_utc) ∅ = Ok c'
          ∧ c' !! "platform_container_name" = Some (VStr s)
          ∧ (String.length s ≤ 128)%nat.
Proof.
  assert (field_of "name" (update (env:=linux_utc) ∅)
          = Ok (Some (VStr "My [Cool] List.txt"))) as H by evaluate.
  apply field_of_Ok in H as (c' & H & _).
  destruct (update_container_name_shape _ _ H) as (s & Hs & Hlen & _).
  exists c', s. split_and!; [exact H|exact Hs|exact Hlen].
Defined.

Lemma update_ping_invariant_witness :
  ∃ c' v', update (env:=linux_utc) {["ping" := VDict [("alice", VInt 1)]]} = Ok c'
           ∧ c' !! "ping" = Some v' ∧ mentions v'.
Proof.
  assert (field_of "ping"
            (update (env:=linux_utc) {["ping" := VDict [("alice", VInt 1)]]})
          = Ok (Some (VList [VStr "@alice"]))) as H by evaluate.
  apply field_of_Ok in H as (c' & H & _).
  assert (({["ping" := VDict [("alice", VInt 1)]]} : content) !! "ping"
          = Some (VDict [("alice", VInt 1)])) as Hv by evaluate.
  destruct (update_ping_invariant _ _ _ Hv H) as (v' & Hv' & Hm).
  exists c', v'. split_and!; [exact H|exact Hv'|exact Hm].
Defined.

Lemma update_ping_of_string_witness :
  ∃ c', update (env:=linux_utc) {["ping" := VStr "@ab"]} = Ok c'
        ∧ c' !! "ping" = Some (VList [VStr "@"; VStr "@a"; VStr "@b"]).
Proof.
  assert (field_of "ping" (update (env:=linux_utc) {["ping" := VStr "@ab"]})
          = Ok (Some (VList [VStr "@"; VStr "@a"; VStr "@b"]))) as H by evaluate.
  apply field_of_Ok in H as (c' & H & _).
  assert (({["ping" := VStr "@ab"]} : content) !! "ping" = Some (VStr "@ab")) as Hv
    by evaluate.
  exists c'. split; [exact H|]. exact (update_ping_of_string _ _ _ Hv H).
Defined.

Lemma update_ping_stable_witness :
  ∃ c1 c2, update (env:=linux_utc) {["ping" := VList [VStr "alice"]]} = Ok c1
           ∧ update (env:=linux_utc) c1 = Ok c2
           ∧ c2 !! "ping" = c1 !! "ping".
Proof.
  assert (field_of "ping"
            (update (env:=linux_utc) {["ping" := VList [VStr "alice"]]}
             ≫= update (env:=linux_utc))
          = Ok (Some (VList [VStr "@alice"]))) as H by evaluate.
  apply field_of_Ok in H as (c2 & H & _). apply bind_Ok in H as (c1 & H1 & H2).
  exists c1, c2. split_and!; [exact H1|exact H2|]. exact (update_ping_stable _ _ _ H1 H2).
Defined.

Lemma create_missing_index_fills_witness :
  ∃ c', create_missing_index (env:=linux_utc) {["days_until_next_test" := VInt 9]} = Ok c'
        ∧ c' !! "days_until_next_test" = Some (VInt 9)
        ∧ is_Some (c' !! "ping").
Proof.
  assert (field_of "days_until_next_test"
            (create_missing_index (env:=linux_utc) {["days_until_next_test" := VInt 9]})
          = Ok (Some (VInt 9))) as H by evaluate.
  apply field_of_Ok in H as (c' & H & _).
  assert (({["days_until_next_test" := VInt 9]} : content) !! "days_until_next_test"
          = Some (VInt 9)) as Hv by evaluate.
  destruct (create_missing_index_fills _ _ H) as (Hkeep & _ & Hall).
  exists c'. split_and!; [exact H|exact (Hkeep _ _ Hv)|].
  apply Hall. by_decide.
Defined.

Lemma clean_fields_witness :
  clean (<["stable" := VBool true]> {["extra" := VInt 7]}) !! "extra" = Some (VInt 7)
  ∧ clean (<["stable" := VBool true]> {["extra" := VInt 7]}) !! "stable" = None.
Proof.
  assert ("extra" ∉ obsolete_indexes) as Hk by by_decide.
  assert ((<["stable" := VBool true]> {["extra" := VInt 7]} : content) !! "extra"
          = Some (VInt 7)) as Hv by evaluate.
  assert ("stable" ∉ dom (clean (<["stable" := VBool true]> {["extra" := VInt 7]})))
    as Hs.
  { rewrite (proj1 (clean_fields _)). apply not_elem_of_difference. right.
    apply elem_of_list_to_set. by_decide. }
  split.
  - rewrite (proj1 (proj2 (clean_fields _)) _ Hk). exact Hv.
  - apply not_elem_of_dom. exact Hs.
Defined.

Lemma normalize_dom_witness :
  ∃ c', normalize (env:=linux_utc) {["stable" := VBool true]} = Ok c'
        ∧ c' !! "stable" = None ∧ is_Some (c' !! "platform_optout").
Proof.
  assert (field_of "stable" (normalize (env:=linux_utc) {["stable" := VBool true]})
          = Ok None) as H by evaluate.
  apply field_of_Ok in H as (c' & H & _).
  destruct (normalize_dom _ _ H) as (_ & Hall & Hnone).
  exists c'. split_and!; [exact H|apply Hnone; by_decide|apply Hall; by_decide].
Defined.

Lemma normalize_typed_witness :
  ∃ c' b, normalize (env:=linux_utc) {["ping_enabled" := VStr "1"]} = Ok c'
          ∧ c' !! "ping_enabled" = Some (VBool b).
Proof.
  assert (field_of "ping_enabled"
            (normalize (env:=linux_utc) {["ping_enabled" := VStr "1"]})
          = Ok (Some (VBool true))) as H by evaluate.
  apply field_of_Ok in H as (c' & H & _).
  assert ("ping_enabled" ∈ ["currently_under_test"; "ping_enabled"]) as Hin by by_decide.
  destruct (proj1 (normalize_typed _ _ H) "ping_enabled" Hin) as (b & Hb).
  exists c', b. split; [exact H|exact Hb].
Defined.

Lemma get_ping_for_commit_normalized_witness :
  ∃ c' s, normalize (env:=linux_utc)
            (<["ping_enabled" := VInt 1]> {["ping" := VList [VStr "alice"; VStr "@bob"]]})
          = Ok c'
          ∧ get_ping_for_commit c' = Ok s.
Proof.
  assert (field_of "ping"
            (normalize (env:=linux_utc)
               (<["ping_enabled" := VInt 1]>
                  {["ping" := VList [VStr "alice"; VStr "@bob"]]}))
          = Ok (Some (VList [VStr "@alice"; VStr "@bob"]))) as H by evaluate.
  apply field_of_Ok in H as (c' & H & _).
  destruct (get_ping_for_commit_normalized _ _ H) as (b & l & _ & _ & _ & Hg).
  exists c'. eexists. split; [exact H|exact Hg].
Defined.

Lemma get_ping_for_commit_malformed_witness :
  get_ping_for_commit (<["ping_enabled" := VBool true]> {["ping" := VList [VInt 1]]})
  = Raise TypeError.
Proof.
  assert ((<["ping_enabled" := VBool true]> {["ping" := VList [VInt 1]]} : content)
            !! "ping_enabled" = Some (VBool true)) as He by evaluate.
  assert ((<["ping_enabled" := VBool true]> {["ping" := VList [VInt 1]]} : content)
            !! "ping" = Some (VList [VInt 1])) as Hv by evaluate.
  exact (proj2 (get_ping_for_commit_malformed _ _ He Hv) [] (VInt 1) [] eq_refl eq_refl).
Defined.

Lemma store_fields_witness :
  ∃ j, store (env:=linux_utc)
         (<["platform_container_id" := VUUID (UUID 5)]> {["name" := VStr "x"]}) = Ok j
       ∧ j !! "name" = Some (VStr "x")
       ∧ j !! "platform_container_id"
         = Some (VStr "00000000-0000-0000-0000-000000000005").
Proof.
  assert (field_of "name"
            (store (env:=linux_utc)
               (<["platform_container_id" := VUUID (UUID 5)]> {["name" := VStr "x"]}))
          = Ok (Some (VStr "x"))) as H by evaluate.
  apply field_of_Ok in H as (j & H & _).
  assert ((<["platform_container_id" := VUUID (UUID 5)]> {["name" := VStr "x"]} : content)
            !! "name" = Some (VStr "x")) as Hn by evaluate.
  assert ((<["platform_container_id" := VUUID (UUID 5)]> {["name" := VStr "x"]} : content)
            !! "platform_container_id" = Some (VUUID (UUID 5))) as Hu by evaluate.
  destruct (store_fields _ _ H) as (_ & _ & Hsame & Huuid & _).
  exists j. split_and!; [exact H|exact (Hsame _ _ Hn eq_refl eq_refl)|].
  exact (Huuid _ _ Hu).
Defined.

Lemma store_timestamp_witness :
  ∃ j, store (env:=windows_utc) {["finish_timestamp" := VDatetime (DateTime (-1000000) None)]}
       = Ok j
       ∧ j !! "finish_timestamp" = Some (VFloat float_zero).
Proof.
  assert (field_of "finish_timestamp"
            (store (env:=windows_utc)
               {["finish_timestamp" := VDatetime (DateTime (-1000000) None)]})
          = Ok (Some (VFloat float_zero))) as H by evaluate.
  apply field_of_Ok in H as (j & H & _).
  assert (({["finish_timestamp" := VDatetime (DateTime (-1000000) None)]} : content)
            !! "finish_timestamp" = Some (VDatetime (DateTime (-1000000) None))) as Hv
    by evaluate.
  assert (timestamp (Env:=windows_utc) (DateTime (-1000000) None) = Raise OSError) as Ht
    by evaluate.
  exists j. split; [exact H|].
  destruct (store_timestamp _ _ _ _ H Hv eq_refl) as [(f & Hf & _)|(_ & Hj)];
    [congruence|exact Hj].
Defined.

Lemma store_rejects_datetime_witness :
  ∃ e, store (env:=linux_utc) {["checked_at" := VDatetime (DateTime 0 None)]} = Raise e.
Proof.
  assert (({["checked_at" := VDatetime (DateTime 0 None)]} : content) !! "checked_at"
          = Some (VDatetime (DateTime 0 None))) as Hv by evaluate.
  exact (store_rejects_datetime _ _ _ Hv eq_refl eq_refl).
Defined.

Lemma local_copy_after_normalize_witness :
  ∃ c' j, normalize (env:=linux_utc) {["finish_timestamp" := VInt 5]} = Ok c'
          ∧ local_copy (env:=linux_utc) c' = Ok j
          ∧ map_Forall (λ _ v, json_encodable v = true) j.
Proof.
  assert (field_of "finish_timestamp"
            (normalize (env:=linux_utc) {["finish_timestamp" := VInt 5]})
          = Ok (Some (VDatetime (DateTime 5000000 None)))) as H by evaluate.
  apply field_of_Ok in H as (c' & H & _).
  assert ((c ← normalize (env:=linux_utc) {["finish_timestamp" := VInt 5]};
           j ← local_copy (env:=linux_utc) c;
           Ok (bool_decide (map_Forall (λ _ v, json_encodable v = true) j)))
          = Ok true) as Hs by evaluate.
  assert (map_Forall (λ _ v, json_encodable v = true)
            ({["finish_timestamp" := VInt 5]} : content)) as Hjson
    by (by apply map_Forall_singleton).
  assert (({["finish_timestamp" := VInt 5]} : content) !! "custom_pyfunceble_config" = None)
    as Hn by evaluate.
  assert (∀ d, ({["finish_timestamp" := VInt 5]} : content) !! "custom_pyfunceble_config"
                    = Some (VDict d)
               → json_encodable (VDict (flatten (Env:=linux_utc) d)) = true) as Hflat
    by (intros d Hd; congruence).
  destruct (local_copy_after_normalize _ _ Hjson Hflat H)
    as [(j & Hj & Henc)|_].
  - exists c', j. split_and!; [exact H|exact Hj|exact Henc].
  - rewrite H in Hs. cbn [mbind result_bind] in Hs.
    destruct (local_copy (env:=linux_utc) c') as [j|e] eqn:Hj; [|discriminate].
    cbn [mbind result_bind] in Hs. apply Ok_inj in Hs.
    apply bool_decide_eq_true_1 in Hs.
    exists c', j. split_and!; [exact H|exact Hj|exact Hs].
Defined.

Lemma init_config_dir_witness :
  ∃ c j, init (env:=linux_utc) (Some {["platform_optout" := VInt 1]})
         = Ok (c, j, TemporaryConfigDir).
Proof.
  assert (raised (init (env:=linux_utc) (Some {["platform_optout" := VInt 1]})) = None)
    as H by evaluate.
  apply raised_None in H as ([[c j] d] & H).
  exists c, j. rewrite H. do 2 f_equal.
  destruct (init_config_dir _ _ _ _ H) as (_ & _ & Hd).
  destruct d; [|reflexivity]. destruct (proj1 Hd eq_refl) as [Ht|[Hn _]].
  - assert (load (Some ({["platform_optout" := VInt 1]} : content)) !! "platform_optout"
            = Some (VInt 1)) as Hv by evaluate.
    congruence.
  - assert (load (Some ({["platform_optout" := VInt 1]} : content)) !! "platform_optout"
            = Some (VInt 1)) as Hv by evaluate.
    congruence.
Defined.

Lemma normalize_getitem_witness :
  ∃ c', normalize (env:=linux_utc) (<["list_name" := VStr "x"]> {["extra" := VInt 7]})
        = Ok c'
        ∧ getitem c' "list_name" = Raise AttributeError
        ∧ getitem c' "extra" = Ok (VInt 7)
        ∧ ∃ v, getitem c' "platform_optout" = Ok v.
Proof.
  assert (field_of "extra"
            (normalize (env:=linux_utc)
               (<["list_name" := VStr "x"]> {["extra" := VInt 7]}))
          = Ok (Some (VInt 7))) as H by evaluate.
  apply field_of_Ok in H as (c' & H & _).
  assert (getitem (<["list_name" := VStr "x"]> {["extra" := VInt 7]}) "extra"
          = Ok (VInt 7)) as Hv by evaluate.
  destruct (normalize_getitem _ _ H) as (Hdef & Hobs & Hother).
  exists c'. split_and!; [exact H| | |].
  - apply Hobs. by_decide.
  - rewrite Hother; [exact Hv|by_decide..].
  - apply Hdef. by_decide.
Defined.
